(** * A shallow embedding of [myServer.py]

    The server reads one HTTP/1.1 request from a socket
    ([recv_until_crlfs]), dispatches on the method
    ([HTTPServer.process_response]) and serialises the answer with a
    [ResponseBuilder].

    Conventions of the embedding.

    - Python [bytes] are Rocq [string]s (sequences of 8-bit characters).
    - A Python [str] is represented by its UTF-8 encoding, again a [string].
      [encode("utf-8")] is then the identity and [decode("utf-8")] is a
      validity check.  [len] of a [str] counts code points, that is the bytes
      which are not UTF-8 continuation bytes.
    - A raised exception is a value: functions that can raise return
      [result A], and [let*] sequences them in Python's evaluation order.
    - The socket is the list of segments still to be delivered; [recv n]
      hands out at most [n] bytes of the first one.
    - The file system and the parts of [urllib.parse] whose behaviour depends
      on the interpreter are parameters of the handlers. *)

From Stdlib Require Import ZArith Ascii String List Lia Bool DecimalString.
From stdpp Require Import base option gmap strings list.

Open Scope string_scope.
Open Scope Z_scope.

(** ** Exceptions *)

Inductive exn : Type :=
  | ValueError
  | TypeError
  | IndexError
  | UnicodeDecodeError
  | OSError.

Inductive result (A : Type) : Type :=
  | Ok (a : A)
  | Raise (e : exn).

Arguments Ok {A} a.
Arguments Raise {A} e.

Definition bind {A B : Type} (r : result A) (k : A -> result B) : result B :=
  match r with
  | Ok a => k a
  | Raise e => Raise e
  end.

Notation "'let*' x ':=' r 'in' k" := (bind r (fun x => k))
  (at level 10, x pattern, r at level 100, k at level 200).

Fixpoint mapM {A B : Type} (f : A -> result B) (l : list A) : result (list B) :=
  match l with
  | [] => Ok []
  | x :: t => let* y := f x in let* ys := mapM f t in Ok (y :: ys)
  end.

(** ** Python built-ins on [bytes] and [str] *)

Module Py.

Definition bytes : Type := string.
Definition str : Type := string.

Definition CR : ascii := "013"%char.
Definition LF : ascii := "010"%char.

Definition code (c : ascii) : N := N_of_ascii c.

Definition between (lo hi : N) (c : ascii) : bool :=
  ((lo <=? code c) && (code c <=? hi))%N.

Definition is_upper (c : ascii) : bool := between 65 90 c.
Definition is_digit (c : ascii) : bool := between 48 57 c.
Definition is_ascii_char (c : ascii) : bool := (code c <? 128)%N.
(** A UTF-8 continuation byte, [10xxxxxx]. *)
Definition is_cont (c : ascii) : bool := between 128 191 c.

Fixpoint forallb_str (p : ascii -> bool) (s : string) : bool :=
  match s with
  | EmptyString => true
  | String c t => p c && forallb_str p t
  end.

Definition is_ascii (s : string) : bool := forallb_str is_ascii_char s.

(** [len(b)] for [bytes]. *)
Definition bytes_len (b : bytes) : Z := Z.of_nat (String.length b).

(** [len(s)] for [str]: the number of code points. *)
Fixpoint count_code_points (s : str) : nat :=
  match s with
  | EmptyString => O
  | String c t => if is_cont c then count_code_points t else S (count_code_points t)
  end.

Definition str_len (s : str) : Z := Z.of_nat (count_code_points s).

(** [not data]: emptiness test. *)
Definition is_empty (s : string) : bool :=
  match s with
  | EmptyString => true
  | String _ _ => false
  end.

(** [s.startswith(p)]. *)
Fixpoint starts_with (p s : string) : bool :=
  match p with
  | EmptyString => true
  | String a p' =>
      match s with
      | EmptyString => false
      | String b s' => Ascii.eqb a b && starts_with p' s'
      end
  end.

(** *** Searching: [sub in s] and [s.find(sub)] *)

Fixpoint find_from (sub s : string) (i : nat) : option nat :=
  if starts_with sub s then Some i
  else match s with
       | EmptyString => None
       | String _ t => find_from sub t (S i)
       end.

(** [s.find(sub)]: the lowest index of an occurrence, [-1] when there is none. *)
Definition find (sub s : string) : Z :=
  match find_from sub s O with
  | Some i => Z.of_nat i
  | None => -1
  end.

(** [sub in s]. *)
Definition contains (sub s : string) : bool :=
  match find_from sub s O with
  | Some _ => true
  | None => false
  end.

(** *** Slices with one bound *)

Fixpoint take (n : nat) (s : string) : string :=
  match n, s with
  | S n', String c t => String c (take n' t)
  | _, _ => EmptyString
  end.

Fixpoint drop (n : nat) (s : string) : string :=
  match n, s with
  | S n', String _ t => drop n' t
  | _, _ => s
  end.

(** A slice bound is clipped to [0 .. len]; a negative one counts from the end. *)
Definition clip (len i : Z) : nat :=
  Z.to_nat (if i <? 0 then Z.max 0 (len + i) else Z.min i len).

(** [b[:i]] and [b[i:]] on [bytes]. *)
Definition slice_to (i : Z) (b : bytes) : bytes := take (clip (bytes_len b) i) b.
Definition slice_from (i : Z) (b : bytes) : bytes := drop (clip (bytes_len b) i) b.

(** [s[1:]] on a [str]: everything after the first code point. *)
Fixpoint drop_conts (s : str) : str :=
  match s with
  | String c t => if is_cont c then drop_conts t else s
  | EmptyString => s
  end.

Definition str_tail (s : str) : str :=
  match s with
  | EmptyString => EmptyString
  | String _ t => drop_conts t
  end.

(** *** [sep.join(l)] *)

Fixpoint join (sep : string) (l : list string) : string :=
  match l with
  | [] => EmptyString
  | [x] => x
  | x :: t => x +:+ sep +:+ join sep t
  end.

(** *** [s.split(sep)] and [s.split(sep, maxsplit)]

    [skip] counts the characters of a separator just matched that are
    still to be passed over; [cur] is the piece being read, reversed;
    [budget] is the number of splits still allowed ([None]: no limit). *)

Definition spend (budget : option nat) : option (option nat) :=
  match budget with
  | None => Some None
  | Some O => None
  | Some (S k) => Some (Some k)
  end.

Fixpoint split_aux (sep : string) (budget : option nat) (skip : nat)
    (cur : string) (s : string) : list string :=
  match s with
  | EmptyString => [String.rev cur]
  | String c t =>
      match skip with
      | S k => split_aux sep budget k cur t
      | O =>
          if starts_with sep s then
            match spend budget with
            | Some budget' =>
                String.rev cur
                  :: split_aux sep budget' (Nat.pred (String.length sep)) EmptyString t
            | None => split_aux sep budget O (String c cur) t
            end
          else split_aux sep budget O (String c cur) t
      end
  end.

(** [s.split(sep)], for a non-empty [sep]. *)
Definition split (sep s : string) : list string := split_aux sep None O EmptyString s.

(** [s.split(sep, n)], for a non-empty [sep]. *)
Definition split_max (sep : string) (n : nat) (s : string) : list string :=
  split_aux sep (Some n) O EmptyString s.

(** *** [s.split()]: splitting at runs of white space

    White space is what [str.isspace] accepts.  In UTF-8: the bytes
    09-0D, 1C-1F and 20; C2 85 and C2 A0; E1 9A 80; E2 80 80 to E2 80 8A;
    E2 80 A8, E2 80 A9, E2 80 AF; E2 81 9F; E3 80 80.  [space_width s] is
    the number of bytes of the white-space character [s] starts with,
    [0] when it starts with none. *)

Definition space_width (s : str) : nat :=
  match s with
  | EmptyString => O
  | String c t =>
      if between 9 13 c || between 28 32 c then 1%nat
      else
        match t with
        | EmptyString => O
        | String d u =>
            if (code c =? 194)%N then
              if (code d =? 133)%N || (code d =? 160)%N then 2%nat else O
            else
              match u with
              | EmptyString => O
              | String e _ =>
                  if (code c =? 225)%N then
                    if (code d =? 154)%N && (code e =? 128)%N then 3%nat else O
                  else if (code c =? 226)%N then
                    if (code d =? 128)%N then
                      if between 128 138 e || between 168 169 e || (code e =? 175)%N
                      then 3%nat else O
                    else if (code d =? 129)%N && (code e =? 159)%N then 3%nat
                    else O
                  else if (code c =? 227)%N then
                    if (code d =? 128)%N && (code e =? 128)%N then 3%nat else O
                  else O
              end
        end
  end.

Definition flush (cur : string) (rest : list string) : list string :=
  match cur with
  | EmptyString => rest
  | String _ _ => String.rev cur :: rest
  end.

Fixpoint split_ws_aux (skip : nat) (cur : string) (s : string) : list string :=
  match s with
  | EmptyString => flush cur []
  | String c t =>
      match skip with
      | S k => split_ws_aux k cur t
      | O =>
          match space_width s with
          | O => split_ws_aux O (String c cur) t
          | S k => flush cur (split_ws_aux k EmptyString t)
          end
      end
  end.

Definition split_ws (s : str) : list str := split_ws_aux O EmptyString s.

(** [l[-1]] on a list. *)
Definition last_item (l : list string) : result string :=
  match List.rev l with
  | x :: _ => Ok x
  | [] => Raise IndexError
  end.

(** [l[0]] on a list. *)
Definition first_item (l : list string) : result string :=
  match l with
  | x :: _ => Ok x
  | [] => Raise IndexError
  end.

End Py.

(** ** Text: UTF-8, case, numbers *)

Module Text.
Import Py.

(** Well-formed UTF-8, as the strict codec accepts it: shortest forms
    only, no surrogates, nothing above U+10FFFF. *)

Definition second_of_3 (a b : ascii) : bool :=
  if (code a =? 224)%N then between 160 191 b
  else if (code a =? 237)%N then between 128 159 b
  else is_cont b.

Definition second_of_4 (a b : ascii) : bool :=
  if (code a =? 240)%N then between 144 191 b
  else if (code a =? 244)%N then between 128 143 b
  else is_cont b.

Fixpoint utf8_valid (s : bytes) : bool :=
  match s with
  | EmptyString => true
  | String a t =>
      if is_ascii_char a then utf8_valid t
      else
        match t with
        | EmptyString => false
        | String b u =>
            if between 194 223 a then is_cont b && utf8_valid u
            else
              match u with
              | EmptyString => false
              | String c v =>
                  if between 224 239 a then
                    second_of_3 a b && is_cont c && utf8_valid v
                  else
                    match v with
                    | EmptyString => false
                    | String d w =>
                        between 240 244 a && second_of_4 a b
                        && is_cont c && is_cont d && utf8_valid w
                    end
              end
        end
  end.

(** [b.decode("utf-8")]. *)
Definition decode (b : bytes) : result str :=
  if utf8_valid b then Ok b else Raise UnicodeDecodeError.

(** [s.encode("utf-8")]. *)
Definition encode (s : str) : bytes := s.

(** The part of the interpreter that consults the Unicode character
    database: what [str.lower] and [int] do with a [str] that has a
    character outside ASCII. *)
Record unicode : Type := {
  lower_wide : str -> str;
  int_wide : str -> result Z
}.

Definition lower_char (c : ascii) : ascii :=
  if is_upper c then ascii_of_N (code c + 32) else c.

Fixpoint map_str (f : ascii -> ascii) (s : string) : string :=
  match s with
  | EmptyString => EmptyString
  | String c t => String (f c) (map_str f t)
  end.

(** [s.lower()]. *)
Definition lower (U : unicode) (s : str) : str :=
  if is_ascii s then map_str lower_char s else lower_wide U s.

(** The white space [int] skips around an ASCII literal: 09-0D and 20. *)
Definition is_int_space (c : ascii) : bool := between 9 13 c || (code c =? 32)%N.

Fixpoint lstrip (s : string) : string :=
  match s with
  | String c t => if is_int_space c then lstrip t else s
  | EmptyString => s
  end.

Definition strip (s : string) : string := String.rev (lstrip (String.rev (lstrip s))).

Definition digit_val (c : ascii) : Z := Z.of_N (code c) - 48.

(** Decimal digits, with single underscores allowed between two digits.
    [after_digit] tells whether the previous character was a digit. *)
Fixpoint digits (acc : Z) (after_digit : bool) (s : string) : option Z :=
  match s with
  | EmptyString => if after_digit then Some acc else None
  | String c t =>
      if is_digit c then digits (10 * acc + digit_val c) true t
      else if (code c =? 95)%N && after_digit then digits acc false t
      else None
  end.

Definition int_ascii (s : str) : result Z :=
  let body := strip s in
  let parsed :=
    match body with
    | String "-" t => option_map Z.opp (digits 0 false t)
    | String "+" t => digits 0 false t
    | _ => digits 0 false body
    end in
  match parsed with
  | Some z => Ok z
  | None => Raise ValueError
  end.

(** [int(s)] for a [str], base ten. *)
Definition int (U : unicode) (s : str) : result Z :=
  if is_ascii s then int_ascii s else int_wide U s.

(** [str(n)] for an [int], as an f-string formats it. *)
Definition str_of_int (n : Z) : str := NilZero.string_of_int (Z.to_int n).

(** [urllib.parse.quote_plus]: letters, digits and [_.-~] are kept, a
    space becomes [+], every other byte of the UTF-8 encoding becomes
    [%XX] with upper-case hexadecimal digits. *)

Definition is_alnum (c : ascii) : bool :=
  is_digit c || is_upper c || between 97 122 c.

Definition always_safe (c : ascii) : bool :=
  is_alnum c || (code c =? 95)%N || (code c =? 46)%N
  || (code c =? 45)%N || (code c =? 126)%N.

Definition hex_digit (n : N) : ascii :=
  if (n <? 10)%N then ascii_of_N (48 + n) else ascii_of_N (55 + n).

Definition percent (c : ascii) : string :=
  String "%" (String (hex_digit (code c / 16)) (String (hex_digit (code c mod 16)) "")).

Fixpoint quote_plus (s : str) : str :=
  match s with
  | EmptyString => EmptyString
  | String c t =>
      (if always_safe c then String c ""
       else if (code c =? 32)%N then "+"
       else percent c) +:+ quote_plus t
  end.

End Text.

(** ** The socket *)

Module Socket.
Import Py.

(** The segments the peer has sent and the server has not read yet, in
    order; the peer has closed its side after the last one. *)
Definition t : Type := list bytes.

(** [sock.recv(n)]: at most [n] bytes of the first segment; [b""] when
    nothing is left or when [n] is [0].  Both calls in the server pass
    an [n] that is not negative.  This is the call when it returns: the
    interpreter allocates a buffer of [n] bytes first, and raises
    [OverflowError] from [2^63] on and [MemoryError] when it cannot get
    that much.  A property that passes a size taken from the request
    therefore bounds it: by [0], by the segment read, or by [BUFF_SIZE],
    the size the server asks for in every other call. *)
Definition recv (n : Z) (sock : t) : bytes * t :=
  match sock with
  | [] => (EmptyString, [])
  | seg :: rest =>
      if n <=? 0 then (EmptyString, sock)
      else if bytes_len seg <=? n then (seg, rest)
      else (take (Z.to_nat n) seg, drop (Z.to_nat n) seg :: rest)
  end.

(** A bound on the number of [recv] calls with a positive size that can
    return data. *)
Fixpoint reads (sock : t) : nat :=
  match sock with
  | [] => O
  | seg :: rest => S (String.length seg + reads rest)
  end.

End Socket.

(** ** Constants *)

Definition BUFF_SIZE : Z := 8192.

(** Equivalent to CRLF, named NEWLINE for clarity. *)
Definition NEWLINE : Py.str := String Py.CR (String Py.LF EmptyString).

Definition HTTP_REQ_HEADER_END : Py.bytes := Text.encode (NEWLINE +:+ NEWLINE).

(** ** class Request *)

Module Request.
Import Py.

Record t : Type := mk {
  method : str;
  path : str;
  headers : gmap string string;
  content : str
}.

(** [Request.__init__]: the first two words of the start line are the
    method and the target; the target loses its first character. *)
Definition init (start_line : str) (headers : gmap string string) (content : str)
    : result t :=
  match split_ws start_line with
  | m :: p :: _ => Ok (mk m (str_tail p) headers content)
  | _ => Raise ValueError
  end.

End Request.

(** ** recv_until_crlfs *)

Module Framer.
Import Py Text.

Definition to_tuple (U : unicode) (kvstr : str) : result (str * str) :=
  match split_max ":" 1 kvstr with
  | [k; v] => Ok (lower U k, v)
  | _ => Raise ValueError
  end.

(** [dict(pairs)]: a later pair replaces an earlier one with the same key. *)
Definition dict (pairs : list (str * str)) : gmap string string :=
  foldl (fun m kv => <[kv.1 := kv.2]> m) ∅ pairs.

(** What the first loop leaves behind. *)
Record head : Type := mk_head {
  header_data : bytes;
  content : bytes;
  content_bytes_read : Z;
  rest : Socket.t
}.

(** The loop of lines 50-62.  Only the chunk just received is searched
    for the terminator. *)
Fixpoint header_loop (fuel : nat) (sock : Socket.t) (header_data : bytes)
    : option head :=
  match fuel with
  | O => None
  | S fuel' =>
      let '(data, sock') := Socket.recv BUFF_SIZE sock in
      if is_empty data then Some (mk_head header_data EmptyString 0 sock')
      else if contains HTTP_REQ_HEADER_END data then
        let header_end_idx := find HTTP_REQ_HEADER_END data in
        Some (mk_head
                (header_data +:+ slice_to header_end_idx data)
                (EmptyString +:+ slice_from (header_end_idx + 4) data)
                (Z.max 0 (bytes_len data - header_end_idx - 4))
                sock')
      else header_loop fuel' sock' (header_data +:+ data)
  end.

(** The loop of lines 70-74: read until the peer closes. *)
Fixpoint content_loop (fuel : nat) (sock : Socket.t) (content : bytes)
    : option bytes :=
  match fuel with
  | O => None
  | S fuel' =>
      let '(data, sock') := Socket.recv BUFF_SIZE sock in
      if is_empty data then Some content
      else content_loop fuel' sock' (content +:+ data)
  end.

(** Lines 67-78: completing the body. *)
Definition read_content (U : unicode) (header_kvs : gmap string string) (h : head)
    : option (result bytes) :=
  if content_bytes_read h =? 0 then Some (Ok (content h))
  else
    match header_kvs !! "content-length" with
    | None =>
        option_map Ok (content_loop (S (Socket.reads (rest h))) (rest h) (content h))
    | Some v =>
        Some (let* content_len := int U v in
              let to_recv := Z.max 0 (content_len - content_bytes_read h) in
              Ok (content h +:+ (Socket.recv to_recv (rest h)).1))
    end.

(** Lines 64-66: the header text, its lines and the header map. *)
Definition parse_head (U : unicode) (header_data : bytes)
    : result (list str * gmap string string) :=
  let* headers := decode header_data in
  let header_list := split NEWLINE headers in
  let* kvs := mapM (to_tuple U) (tail header_list) in
  Ok (header_list, dict kvs).

(** The result is [None] only if a loop ran out of fuel, which
    [recv_until_crlfs_total] excludes. *)
Definition recv_until_crlfs (U : unicode) (sock : Socket.t)
    : option (result Request.t) :=
  match header_loop (S (Socket.reads sock)) sock EmptyString with
  | None => None
  | Some h =>
      match parse_head U (header_data h) with
      | Raise e => Some (Raise e)
      | Ok (header_list, header_kvs) =>
          match read_content U header_kvs h with
          | None => None
          | Some body =>
              Some (let* content := body in
                    let* start_line := first_item header_list in
                    let* text := decode content in
                    Request.init start_line header_kvs text)
          end
      end
  end.

End Framer.

(** ** File helpers *)

Module Files.
Import Py.

(** The file system the server runs on: [os.path.exists],
    [os.stat(f).st_mode], and reading a file in text and in binary mode. *)
Record filesystem : Type := {
  exists_path : str -> bool;
  st_mode : str -> result Z;
  read_text : str -> result str;
  read_bytes : str -> result bytes
}.

Section WithFilesystem.
Variable fs : filesystem.

Definition get_file_contents (file_name : str) : result str := read_text fs file_name.

Definition get_file_binary_contents (file_name : str) : result bytes :=
  read_bytes fs file_name.

Definition S_IROTH : Z := 4.

Definition has_permission_other (file_name : str) : result bool :=
  let* stmode := st_mode fs file_name in
  Ok (0 <? Z.land S_IROTH stmode).

Definition file_exists (file_name : str) : bool := exists_path fs file_name.
End WithFilesystem.

(** The same files under other permission bits; [mode] may also raise,
    as [os.stat] does for a path that is not there. *)
Definition chmod (fs : filesystem) (mode : str -> result Z) : filesystem :=
  {| exists_path := exists_path fs;
     st_mode := mode;
     read_text := read_text fs;
     read_bytes := read_bytes fs |}.

Definition binary_type_files : gset string :=
  list_to_set ["jpg"; "jpeg"; "png"; "gif"; "pdf"; "mp3"; "wav"; "avi"; "mp4"; "mov"].

Definition should_return_binary (file_extension : str) : bool :=
  bool_decide (file_extension ∈ binary_type_files).

Definition mime_types : gmap string string :=
  list_to_map
    [("html", "text/html"); ("css", "text/css"); ("js", "application/javascript");
     ("json", "application/json"); ("jpg", "image/jpeg"); ("jpeg", "image/jpeg");
     ("png", "image/png"); ("gif", "image/gif"); ("pdf", "application/pdf");
     ("mp4", "video/mp4"); ("ogg", "audio/ogg"); ("wav", "audio/wav");
     ("txt", "text/plain"); ("mp3", "audio/mp3")].

Definition get_file_mime_type (file_extension : str) : str :=
  match mime_types !! file_extension with
  | None => "text/plain"
  | Some m => m
  end.

End Files.

(** ** class ResponseBuilder *)

Module ResponseBuilder.
Import Py Text.

(** What [add_header] and [set_status] interpolate into an f-string: a
    [str], an [int], or [None] (what [build_url] returns for an unknown
    selector). *)
Inductive value : Type :=
  | Str (s : str)
  | Int (n : Z)
  | NoneValue.

Definition format (v : value) : str :=
  match v with
  | Str s => s
  | Int n => str_of_int n
  | NoneValue => "None"
  end.

(** What [set_content] accepts. *)
Inductive body : Type :=
  | Text (s : str)
  | Binary (b : bytes).

(** [len(content)]. *)
Definition len (c : body) : Z :=
  match c with
  | Text s => str_len s
  | Binary b => bytes_len b
  end.

Record t : Type := mk {
  headers : list str;
  status : option str;
  content : option bytes
}.

Definition init : t := mk [] None None.

Definition add_header (header_key : str) (header_value : value) (self : t) : t :=
  mk (headers self ++ [header_key +:+ ": " +:+ format header_value])
     (status self) (content self).

Definition set_status (status_code : value) (status_message : str) (self : t) : t :=
  mk (headers self)
     (Some ("HTTP/1.1 " +:+ format status_code +:+ " " +:+ status_message))
     (content self).

Definition set_content (c : body) (self : t) : t :=
  mk (headers self) (status self)
     (Some match c with
           | Binary b => b
           | Text s => encode s
           end).

(** [build]: with no status set, [None + NEWLINE] is a [TypeError]. *)
Definition build (self : t) : result bytes :=
  match status self with
  | None => Raise TypeError
  | Some st =>
      let out :=
        encode (st +:+ NEWLINE +:+ join NEWLINE (headers self) +:+ NEWLINE +:+ NEWLINE) in
      match content self with
      | Some c => if is_empty c then Ok out else Ok (out +:+ c)
      | None => Ok out
      end
  end.

End ResponseBuilder.

(** ** parse_post_request and build_url *)

Module Forms.
Import Py Text.

Definition table_row (attribute : list str) : result str :=
  match attribute with
  | [key; value] => Ok ("<tr><td>" +:+ key +:+ "</td><td>" +:+ value +:+ "</td></tr>")
  | _ => Raise ValueError
  end.

Definition parse_post_request (content : str) : result str :=
  let attributes := map (split "=") (split "&" content) in
  let* table_rows := mapM table_row attributes in
  Ok ("<table>" +:+ join "" table_rows +:+ "</table>").

(** The functions of [urllib.parse] the server calls, apart from
    [quote_plus]: [urlparse(q).query], which can raise [ValueError],
    [parse_qs] and [unquote_plus]. *)
Record urllib : Type := {
  urlparse_query : str -> result str;
  parse_qs : str -> gmap string (list str);
  unquote_plus : str -> str
}.

(** [params.get(key, [''])[0]]. *)
Definition first_param (params : gmap string (list str)) (key : str) : result str :=
  first_item (default [""] (params !! key)).

Definition build_url (L : urllib) (query : str) : result ResponseBuilder.value :=
  let* parsed_query := urlparse_query L query in
  let params := parse_qs L parsed_query in
  let* text := first_param params "text" in
  let* selector := first_param params "selector" in
  if String.eqb selector "youtube" then
    Ok (ResponseBuilder.Str
          ("https://www.youtube.com/results?search_query=" +:+ quote_plus text))
  else if String.eqb selector "google" then
    Ok (ResponseBuilder.Str ("https://www.google.com/search?q=" +:+ quote_plus text))
  else Ok ResponseBuilder.NoneValue.

End Forms.

(** ** class HTTPServer *)

Module HTTPServer.
Import Py Text Files Forms.
Import ResponseBuilder.

Section Handlers.
Variable fs : filesystem.
Variable L : urllib.

(** Each handler is split in two: the builder as it stands at the
    [return], and [build] applied to it. *)

Definition resource_not_found_builder : result ResponseBuilder.t :=
  let* content := get_file_contents fs "404.html" in
  let builder := ResponseBuilder.init in
  let builder := set_status (Str "404") "NOT FOUND" builder in
  let builder := add_header "Connection" (Str "close") builder in
  let builder := set_content (Text content) builder in
  Ok builder.

Definition resource_not_found : result bytes :=
  let* builder := resource_not_found_builder in build builder.

Definition get_request_builder (request : Request.t) : result ResponseBuilder.t :=
  let builder := ResponseBuilder.init in
  if contains "redirect" (Request.path request) then
    let builder := set_status (Str "307") "Redirect" builder in
    let* url := build_url L (Request.path request) in
    let builder := add_header "Location" url builder in
    Ok builder
  else if negb (file_exists fs (Request.path request)) then
    let builder := set_status (Str "404") "NOT FOUND" builder in
    let* content := get_file_contents fs "404.html" in
    let builder := set_content (Text content) builder in
    let builder := add_header "Connection" (Str "close") builder in
    Ok builder
  else
    let* readable := has_permission_other fs (Request.path request) in
    if negb readable then
      let builder := set_status (Str "403") "FORBIDDEN" builder in
      let* content := get_file_contents fs "403.html" in
      let builder := set_content (Text content) builder in
      let builder := add_header "Connection" (Str "close") builder in
      Ok builder
    else
      let* extension := last_item (split "." (Request.path request)) in
      let* fileContents :=
        if should_return_binary extension then
          let* b := get_file_binary_contents fs (Request.path request) in Ok (Binary b)
        else
          let* s := get_file_contents fs (Request.path request) in Ok (Text s) in
      let* extension' := last_item (split "." (Request.path request)) in
      let mimeType := get_file_mime_type extension' in
      let builder := set_status (Str "200") "OK" builder in
      let builder := add_header "Content-Type" (Str mimeType) builder in
      let builder := add_header "Connection" (Str "close") builder in
      let builder := add_header "Content-Length" (Int (len fileContents)) builder in
      let builder := set_content fileContents builder in
      Ok builder.

Definition get_request (request : Request.t) : result bytes :=
  let* builder := get_request_builder request in build builder.

Definition post_request_builder (request : Request.t) : result ResponseBuilder.t :=
  let unquoted_content := unquote_plus L (Request.content request) in
  let* fileContents := parse_post_request unquoted_content in
  let builder := ResponseBuilder.init in
  let builder := set_status (Str "200") "OK" builder in
  let allowed := "POST" in
  let builder := add_header "Allow" (Str allowed) builder in
  let builder := add_header "Content-Length" (Int (len (Text fileContents))) builder in
  let builder := set_content (Text fileContents) builder in
  Ok builder.

Definition post_request (request : Request.t) : result bytes :=
  let* builder := post_request_builder request in build builder.

Definition head_request_builder (request : Request.t) : result ResponseBuilder.t :=
  let builder := ResponseBuilder.init in
  let builder := set_status (Str "200") "OK" builder in
  let* builder :=
    if negb (file_exists fs (Request.path request)) then
      Ok (set_status (Str "404") "NOT FOUND" builder)
    else
      let* readable := has_permission_other fs (Request.path request) in
      if negb readable then Ok (set_status (Str "403") "FORBIDDEN" builder)
      else Ok builder in
  let allowed := "HEAD" in
  let builder := add_header "Allow" (Str allowed) builder in
  let builder := add_header "Connection" (Str "close") builder in
  Ok builder.

Definition head_request (request : Request.t) : result bytes :=
  let* builder := head_request_builder request in build builder.

Definition method_not_allowed_builder : ResponseBuilder.t :=
  let builder := ResponseBuilder.init in
  let builder := set_status (Str "405") "METHOD NOT ALLOWED" builder in
  let builder := add_header "Connection" (Str "close") builder in
  builder.

Definition method_not_allowed : result bytes := build method_not_allowed_builder.

Definition process_response (request : Request.t) : result bytes :=
  if String.eqb (Request.method request) "GET" then get_request request
  else if String.eqb (Request.method request) "POST" then post_request request
  else if String.eqb (Request.method request) "HEAD" then head_request request
  else method_not_allowed.

(** [accept_request], up to the bytes handed to [send]. *)
Definition accept_request (U : unicode) (client_sock : Socket.t)
    : option (result bytes) :=
  match Framer.recv_until_crlfs U client_sock with
  | None => None
  | Some r => Some (let* req := r in process_response req)
  end.

End Handlers.

End HTTPServer.

(** ** Vocabulary for the properties *)

(** A use of a [ResponseBuilder]: the calls made on a fresh builder, in order. *)
Module Calls.
Import Py Text ResponseBuilder.

Inductive call : Type :=
  | SetStatus (status_code : value) (status_message : str)
  | AddHeader (header_key : str) (header_value : value)
  | SetContent (c : body).

Definition apply (c : call) (self : ResponseBuilder.t) : ResponseBuilder.t :=
  match c with
  | SetStatus code msg => set_status code msg self
  | AddHeader k v => add_header k v self
  | SetContent c => set_content c self
  end.

Definition run_from (self : ResponseBuilder.t) (calls : list call) : ResponseBuilder.t :=
  foldl (fun b c => apply c b) self calls.

Definition run (calls : list call) : ResponseBuilder.t := run_from init calls.

Definition is_set_status (c : call) : bool :=
  match c with SetStatus _ _ => true | _ => false end.

Definition is_add_header (c : call) : bool :=
  match c with AddHeader _ _ => true | _ => false end.

Definition is_set_content (c : call) : bool :=
  match c with SetContent _ => true | _ => false end.

(** The calls with every [set_content] left out. *)
Definition without_content (calls : list call) : list call :=
  List.filter (fun c => negb (is_set_content c)) calls.

Definition no_cr (s : string) : bool :=
  forallb_str (fun c => negb (Ascii.eqb c CR)) s.

Definition value_no_cr (v : value) : bool :=
  match v with
  | Str s => no_cr s
  | Int _ | NoneValue => true
  end.

(** No text passed to the call contains a carriage return. *)
Definition clean (c : call) : bool :=
  match c with
  | SetStatus code msg => value_no_cr code && no_cr msg
  | AddHeader k v => no_cr k && value_no_cr v
  | SetContent _ => true
  end.

Definition empty_body (c : body) : bool :=
  match c with
  | Text s => is_empty s
  | Binary b => is_empty b
  end.

(** A line that is not empty and has no carriage return. *)
Definition line_ok (h : str) : Prop := no_cr h = true /\ is_empty h = false.

(** The header lines are such lines, and the status line has no
    carriage return. *)
Definition tidy (b : ResponseBuilder.t) : Prop :=
  Forall line_ok (headers b) /\ (forall st, status b = Some st -> no_cr st = true).

End Calls.

(** A message as its receiver takes it apart, the way lines 55-60 take a
    request apart: the bytes before the first CRLF CRLF, and the bytes
    after it. *)
Definition split_message (data : Py.bytes) : option (Py.bytes * Py.bytes) :=
  if Py.contains HTTP_REQ_HEADER_END data then
    let header_end_idx := Py.find HTTP_REQ_HEADER_END data in
    Some (Py.slice_to header_end_idx data, Py.slice_from (header_end_idx + 4) data)
  else None.

(** The status line and the header lines of a builder, as [build] lays
    them out before the blank line. *)
Definition head_text (b : ResponseBuilder.t) : Py.str :=
  default EmptyString (ResponseBuilder.status b)
  +:+ NEWLINE +:+ Py.join NEWLINE (ResponseBuilder.headers b).

Definition body_bytes (b : ResponseBuilder.t) : Py.bytes :=
  default EmptyString (ResponseBuilder.content b).

(** [build] separates head and body once: the bytes after the first blank
    line of the output are exactly the body. *)
Definition separated_once (b : ResponseBuilder.t) : Prop :=
  exists out head,
    ResponseBuilder.build b = Ok out
    /\ split_message out = Some (head, body_bytes b).

(** The builder carries a header line with this name. *)
Definition has_header (name : Py.str) (b : ResponseBuilder.t) : bool :=
  existsb (Py.starts_with (name +:+ ": ")) (ResponseBuilder.headers b).

Definition status_200 : Py.str := "HTTP/1.1 200 OK".

(** The two handlers that answer 200 with a body. *)
Inductive handler : Type :=
  | GetHandler
  | PostHandler.

Definition handler_builder (h : handler) (fs : Files.filesystem) (L : Forms.urllib)
    (request : Request.t) : result ResponseBuilder.t :=
  match h with
  | GetHandler => HTTPServer.get_request_builder fs L request
  | PostHandler => HTTPServer.post_request_builder L request
  end.

(** The first line of the header text the framer has accumulated when its
    first loop ends. *)
Definition start_line_of (sock : Socket.t) : option Py.str :=
  match Framer.header_loop (S (Socket.reads sock)) sock EmptyString with
  | Some h => Some (hd EmptyString (Py.split NEWLINE (Framer.header_data h)))
  | None => None
  end.

(** ** A concrete environment for running the server *)

Module Demo.
Import Py Text Files Forms.

(** An interpreter asked about ASCII text only. *)
Definition ascii_only : unicode :=
  {| lower_wide := fun s => s; int_wide := fun _ => Raise ValueError |}.

(** A disk: path, mode bits, contents. *)
Definition disk (files : gmap string (Z * bytes)) : filesystem :=
  {| exists_path := fun p => bool_decide (is_Some (files !! p));
     st_mode := fun p =>
       match files !! p with
       | Some (m, _) => Ok m
       | None => Raise OSError
       end;
     read_text := fun p =>
       match files !! p with
       | Some (_, c) => decode c
       | None => Raise OSError
       end;
     read_bytes := fun p =>
       match files !! p with
       | Some (_, c) => Ok c
       | None => Raise OSError
       end |}.

Definition site : filesystem :=
  disk (list_to_map
          [("404.html", (420, "<h1>Not Found</h1>"));
           ("403.html", (420, "<h1>Forbidden</h1>"));
           ("index.html", (420, "<p>hi</p>"));
           ("empty.txt", (420, EmptyString));
           ("secret.txt", (416, "key"))]).

(** [urllib.parse] on targets without scheme, host, fragment or
    percent escapes: the query is what follows the first [?]; its
    pairs are separated by [&] and split at their first [=]; a pair
    without a value is dropped. *)
Definition query_of (url : str) : result str :=
  match split_max "?" 1 url with
  | [_; q] => Ok q
  | _ => Ok EmptyString
  end.

Definition add_pair (m : gmap string (list str)) (pair : str) : gmap string (list str) :=
  match split_max "=" 1 pair with
  | [k; v] => if is_empty v then m else <[k := (default [] (m !! k) ++ [v])%list]> m
  | _ => m
  end.

Definition pairs_of (qs : str) : gmap string (list str) :=
  foldl add_pair ∅ (split "&" qs).

Definition plus_to_space (s : str) : str :=
  map_str (fun c => if Ascii.eqb c "+" then " "%char else c) s.

Definition plain_urllib : urllib :=
  {| urlparse_query := query_of; parse_qs := pairs_of; unquote_plus := plus_to_space |}.

Definition request (m p c : str) : Request.t := Request.mk m p ∅ c.

(** The header block of a POST that declares seven bytes of body. *)
Definition post_head : bytes :=
  "POST /x HTTP/1.1" +:+ NEWLINE +:+ "Content-Length: 7" +:+ NEWLINE +:+ NEWLINE.

(** The table [parse_post_request] renders for [a=1&b=2]. *)
Definition two_rows : str :=
  "<table><tr><td>a</td><td>1</td></tr><tr><td>b</td><td>2</td></tr></table>".

End Demo.

(** ** Vocabulary for the further properties *)

(** The character [c] does not occur in [s]. *)
Definition free_of (c : ascii) (s : string) : bool :=
  Py.forallb_str (fun x => negb (Ascii.eqb x c)) s.

(** The number of occurrences of [c] in [s]. *)
Fixpoint count_char (c : ascii) (s : string) : nat :=
  match s with
  | EmptyString => O
  | String x t => if Ascii.eqb c x then S (count_char c t) else count_char c t
  end.

(** An ASCII character that is not white space. *)
Definition plain_char (c : ascii) : bool :=
  Py.is_ascii_char c && negb (Py.between 9 13 c || Py.between 28 32 c).

Definition plain (s : string) : bool := Py.forallb_str plain_char s.

(** All the bytes a socket still holds, end to end. *)
Definition stream (sock : Socket.t) : Py.bytes :=
  fold_right String.append EmptyString sock.

(** A segment that one [recv(BUFF_SIZE)] returns whole. *)
Definition whole (seg : Py.bytes) : Prop :=
  Py.is_empty seg = false /\ Py.bytes_len seg <= BUFF_SIZE.

(** A form field as it is posted, and the table row it is echoed as. *)
Definition pair_text (kv : Py.str * Py.str) : Py.str := kv.1 +:+ "=" +:+ kv.2.

Definition row_text (kv : Py.str * Py.str) : Py.str :=
  "<tr><td>" +:+ kv.1 +:+ "</td><td>" +:+ kv.2 +:+ "</td></tr>".

(** What [quote_plus] can emit: the characters it keeps, [+] and [%]. *)
Definition url_char (c : ascii) : bool :=
  Text.always_safe c || Ascii.eqb c "+" || Ascii.eqb c "%".

(** The header lines a sequence of builder calls adds, in call order. *)
Definition header_lines (calls : list Calls.call) : list Py.str :=
  flat_map (fun c =>
              match c with
              | Calls.AddHeader k v => [k +:+ ": " +:+ ResponseBuilder.format v]
              | _ => []
              end) calls.

(** The status line of the last [set_status] among the calls, after [st]. *)
Definition last_status (st : option Py.str) (calls : list Calls.call) : option Py.str :=
  foldl (fun acc c =>
           match c with
           | Calls.SetStatus code msg =>
               Some ("HTTP/1.1 " +:+ ResponseBuilder.format code +:+ " " +:+ msg)
           | _ => acc
           end) st calls.

(** The bytes of the last [set_content] among the calls, after [ct]. *)
Definition last_content (ct : option Py.bytes) (calls : list Calls.call) : option Py.bytes :=
  foldl (fun acc c =>
           match c with
           | Calls.SetContent (ResponseBuilder.Text s) => Some (Text.encode s)
           | Calls.SetContent (ResponseBuilder.Binary b) => Some b
           | _ => acc
           end) ct calls.

(** The bytes of a response without body: status line, header lines, blank line. *)
Definition bare_response (status_line : Py.str) (lines : list Py.str) : Py.bytes :=
  status_line +:+ NEWLINE +:+ Py.join NEWLINE lines +:+ NEWLINE +:+ NEWLINE.

(** A header as it is written on the wire, and a whole request: start
    line and header lines joined by CRLF, the blank line, the body. *)
Definition header_text (nv : Py.str * Py.str) : Py.str := nv.1 +:+ ":" +:+ nv.2.

Definition head_of_request (start_line : Py.str) (hdrs : list (Py.str * Py.str)) : Py.str :=
  Py.join NEWLINE (start_line :: map header_text hdrs).

Definition request_text (start_line : Py.str) (hdrs : list (Py.str * Py.str))
    (body : Py.bytes) : Py.bytes :=
  head_of_request start_line hdrs +:+ HTTP_REQ_HEADER_END +:+ body.

(** The header map [recv_until_crlfs] builds from these headers. *)
Definition header_map (U : Text.unicode) (hdrs : list (Py.str * Py.str))
    : gmap string string :=
  Framer.dict (map (fun nv => (Text.lower U nv.1, nv.2)) hdrs).

(** No byte of [s] is a UTF-8 continuation byte: every character of the
    text takes one byte. *)
Definition single_byte (s : Py.str) : bool :=
  Py.forallb_str (fun c => negb (Py.is_cont c)) s.

(** The header lines of the answers. *)
Definition head_lines : list Py.str := ["Allow: HEAD"; "Connection: close"].

Definition ok_lines (mime : Py.str) (length : Z) : list Py.str :=
  ["Content-Type: " +:+ mime; "Connection: close";
   "Content-Length: " +:+ Text.str_of_int length].

Definition post_lines (length : Z) : list Py.str :=
  ["Allow: POST"; "Content-Length: " +:+ Text.str_of_int length].

(** * Properties *)

Import Py Text.

(** ** Strings *)

Lemma append_nil (b : string) : EmptyString +:+ b = b.
Proof. reflexivity. Qed.

Lemma append_cons (c : ascii) (a b : string) : String c a +:+ b = String c (a +:+ b).
Proof. reflexivity. Qed.

Lemma append_empty_r (s : string) : s +:+ EmptyString = s.
Proof.
  induction s as [|c s IH]; [reflexivity|].
  now rewrite append_cons, IH.
Qed.

Lemma append_assoc (a b c : string) : (a +:+ b) +:+ c = a +:+ (b +:+ c).
Proof.
  induction a as [|x a IH]; [reflexivity|].
  now rewrite !append_cons, IH.
Qed.

Lemma length_append (a b : string) :
  String.length (a +:+ b) = (String.length a + String.length b)%nat.
Proof.
  induction a as [|x a IH]; [reflexivity|].
  rewrite append_cons. simpl. now rewrite IH.
Qed.

Lemma take_append (a b : string) : take (String.length a) (a +:+ b) = a.
Proof.
  induction a as [|x a IH]; [now destruct b|].
  rewrite append_cons. simpl. now rewrite IH.
Qed.

Lemma drop_append (a b : string) : drop (String.length a) (a +:+ b) = b.
Proof.
  induction a as [|x a IH]; [now destruct b|].
  rewrite append_cons. simpl. exact IH.
Qed.

(** ** The framer on concrete streams *)

(** C1.  A request with [Content-Length: 7] whose body [a=1&b=2] arrives
    after the header block.  When no body byte came with the headers the
    framer reads nothing more and returns an empty body; when three body
    bytes came with them and the other four arrive in two segments, its
    single [recv] takes the first segment only and the body stops at
    [a=1&b].  Neither body has the declared length. *)
Theorem C1_body_after_headers_not_completed (U : unicode) :
  Framer.recv_until_crlfs U [Demo.post_head; "a=1&b=2"]
    = Some (Ok (Request.mk "POST" "x" {[ "content-length" := " 7" ]} EmptyString))
  /\ Framer.recv_until_crlfs U [Demo.post_head +:+ "a=1"; "&b"; "=2"]
    = Some (Ok (Request.mk "POST" "x" {[ "content-length" := " 7" ]} "a=1&b")).
Proof. split; vm_compute; reflexivity. Qed.

(** C2.  The terminator CRLF CRLF is cut in two by a segment boundary.
    The framer looks for it in each segment on its own, finds it in
    neither, keeps the terminator inside the header text and fails on the
    empty header line that results.  The same bytes in one segment are
    framed as the request they spell. *)
Theorem C2_terminator_across_segments_not_found (U : unicode) :
  Framer.recv_until_crlfs U
      ["GET /a HTTP/1.1" +:+ NEWLINE +:+ "Host: x" +:+ NEWLINE; NEWLINE]
    = Some (Raise ValueError)
  /\ Framer.header_loop 3
       ["GET /a HTTP/1.1" +:+ NEWLINE +:+ "Host: x" +:+ NEWLINE; NEWLINE] EmptyString
    = Some (Framer.mk_head
              ("GET /a HTTP/1.1" +:+ NEWLINE +:+ "Host: x" +:+ NEWLINE +:+ NEWLINE)
              EmptyString 0 [])
  /\ Framer.recv_until_crlfs U
       ["GET /a HTTP/1.1" +:+ NEWLINE +:+ "Host: x" +:+ NEWLINE +:+ NEWLINE]
    = Some (Ok (Request.mk "GET" "a" {[ "host" := " x" ]} EmptyString)).
Proof. repeat split; vm_compute; reflexivity. Qed.

(** C8.  The whole header block arrives in one read and the body in the
    next.  The header names come out in lower case and the value of
    [Host] keeps its second colon, but the body is empty although seven
    bytes were declared. *)
Theorem C8_one_read_headers_body_missing (U : unicode) :
  Framer.recv_until_crlfs U
      ["POST /form HTTP/1.1" +:+ NEWLINE +:+ "Host: a:8080" +:+ NEWLINE
         +:+ "Content-LENGTH: 7" +:+ NEWLINE +:+ NEWLINE;
       "a=1&b=2"]
    = Some (Ok (Request.mk "POST" "form"
                  (<[ "content-length" := " 7" ]> {[ "host" := " a:8080" ]})
                  EmptyString)).
Proof. vm_compute; reflexivity. Qed.

(** ** The handlers *)

Import Files Forms ResponseBuilder.

(** C4.  A GET for a path without "redirect" that does not exist is
    answered 404 with the text of 404.html as body and the single header
    [Connection: close].  The answer is the same under every assignment of
    permission bits, including one under which [os.stat] raises: the
    permission check is not reached. *)
Theorem C4_get_missing_path_is_404 (fs : filesystem) (mode : str -> result Z)
    (L : urllib) (request : Request.t) (page : str) :
  contains "redirect" (Request.path request) = false ->
  file_exists fs (Request.path request) = false ->
  get_file_contents fs "404.html" = Ok page ->
  HTTPServer.get_request_builder (chmod fs mode) L request
    = Ok (ResponseBuilder.mk ["Connection: close"]
            (Some "HTTP/1.1 404 NOT FOUND") (Some (encode page)))
  /\ HTTPServer.get_request (chmod fs mode) L request
    = Ok ("HTTP/1.1 404 NOT FOUND" +:+ NEWLINE +:+ "Connection: close"
            +:+ NEWLINE +:+ NEWLINE +:+ page).
Proof.
  intros Hredirect Hmissing Hpage.
  assert (Hb : HTTPServer.get_request_builder (chmod fs mode) L request
               = Ok (ResponseBuilder.mk ["Connection: close"]
                       (Some "HTTP/1.1 404 NOT FOUND") (Some (encode page)))).
  { unfold HTTPServer.get_request_builder, file_exists, get_file_contents in *.
    cbn [chmod exists_path read_text].
    rewrite Hredirect, Hmissing. cbn [negb]. rewrite Hpage. reflexivity. }
  split; [exact Hb|].
  unfold HTTPServer.get_request. rewrite Hb.
  destruct page as [|c page]; reflexivity.
Qed.

Lemma C4_get_missing_path_is_404_witness :
  HTTPServer.get_request (chmod Demo.site (fun _ => Raise OSError)) Demo.plain_urllib
      (Demo.request "GET" "nowhere.html" EmptyString)
    = Ok ("HTTP/1.1 404 NOT FOUND" +:+ NEWLINE +:+ "Connection: close"
            +:+ NEWLINE +:+ NEWLINE +:+ "<h1>Not Found</h1>").
Proof.
  apply (C4_get_missing_path_is_404 Demo.site (fun _ => Raise OSError) Demo.plain_urllib
           (Demo.request "GET" "nowhere.html" EmptyString) "<h1>Not Found</h1>");
    vm_compute; reflexivity.
Defined.

(** C5.  A POST whose body decodes to [a=1&b=2] is answered 200; the body
    is the table with the rows (a,1) and (b,2) in this order, and
    Content-Length is 73, the number of bytes of that table. *)
Theorem C5_post_two_pairs (L : urllib) (request : Request.t) :
  unquote_plus L (Request.content request) = "a=1&b=2" ->
  HTTPServer.post_request_builder L request
    = Ok (ResponseBuilder.mk
            ["Allow: POST"; "Content-Length: " +:+ str_of_int (bytes_len Demo.two_rows)]
            (Some "HTTP/1.1 200 OK") (Some Demo.two_rows))
  /\ HTTPServer.post_request L request
    = Ok ("HTTP/1.1 200 OK" +:+ NEWLINE +:+ "Allow: POST" +:+ NEWLINE
            +:+ "Content-Length: 73" +:+ NEWLINE +:+ NEWLINE +:+ Demo.two_rows)
  /\ Demo.two_rows
    = "<table>" +:+ "<tr><td>a</td><td>1</td></tr>" +:+ "<tr><td>b</td><td>2</td></tr>"
        +:+ "</table>"
  /\ bytes_len Demo.two_rows = 73.
Proof.
  intros Hbody.
  unfold HTTPServer.post_request, HTTPServer.post_request_builder.
  rewrite Hbody. repeat split; vm_compute; reflexivity.
Qed.

Lemma C5_post_two_pairs_witness :
  HTTPServer.post_request Demo.plain_urllib (Demo.request "POST" "form" "a=1&b=2")
    = Ok ("HTTP/1.1 200 OK" +:+ NEWLINE +:+ "Allow: POST" +:+ NEWLINE
            +:+ "Content-Length: 73" +:+ NEWLINE +:+ NEWLINE +:+ Demo.two_rows).
Proof.
  apply (C5_post_two_pairs Demo.plain_urllib (Demo.request "POST" "form" "a=1&b=2")).
  vm_compute; reflexivity.
Defined.

(** C7.  A GET whose path contains "redirect" and whose query gives
    [selector] the value [google] and [text] the value [cats] is answered
    307 with [Location: https://www.google.com/search?q=cats] and no body.
    The values are the ones [build_url] reads, [params.get(key, [''])[0]]. *)
Theorem C7_redirect_to_google (fs : filesystem) (L : urllib) (request : Request.t)
    (query : str) :
  contains "redirect" (Request.path request) = true ->
  urlparse_query L (Request.path request) = Ok query ->
  first_param (parse_qs L query) "selector" = Ok "google" ->
  first_param (parse_qs L query) "text" = Ok "cats" ->
  HTTPServer.get_request_builder fs L request
    = Ok (ResponseBuilder.mk ["Location: https://www.google.com/search?q=cats"]
            (Some "HTTP/1.1 307 Redirect") None)
  /\ HTTPServer.get_request fs L request
    = Ok ("HTTP/1.1 307 Redirect" +:+ NEWLINE
            +:+ "Location: https://www.google.com/search?q=cats" +:+ NEWLINE +:+ NEWLINE).
Proof.
  intros Hredirect Hquery Hselector Htext.
  unfold HTTPServer.get_request, HTTPServer.get_request_builder, build_url.
  rewrite Hredirect, Hquery. cbn [bind]. rewrite Htext, Hselector.
  split; vm_compute; reflexivity.
Qed.

Lemma C7_redirect_to_google_witness :
  HTTPServer.get_request Demo.site Demo.plain_urllib
      (Demo.request "GET" "redirect?selector=google&text=cats" EmptyString)
    = Ok ("HTTP/1.1 307 Redirect" +:+ NEWLINE
            +:+ "Location: https://www.google.com/search?q=cats" +:+ NEWLINE +:+ NEWLINE).
Proof.
  apply (C7_redirect_to_google Demo.site Demo.plain_urllib
           (Demo.request "GET" "redirect?selector=google&text=cats" EmptyString)
           "selector=google&text=cats");
    vm_compute; reflexivity.
Defined.

(** ** Which headers a response carries *)

Lemma split_aux_not_nil (sep : string) (s : string) :
  forall budget skip cur, split_aux sep budget skip cur s <> [].
Proof.
  induction s as [|c s IH]; intros budget skip cur; cbn [split_aux]; [discriminate|].
  destruct skip; [|apply IH].
  destruct (starts_with sep (String c s)); [|apply IH].
  destruct (spend budget); [discriminate | apply IH].
Qed.

Lemma last_item_split (sep s : string) : exists x, last_item (split sep s) = Ok x.
Proof.
  unfold last_item, split.
  pose proof (split_aux_not_nil sep s None O EmptyString) as Hne.
  destruct (split_aux sep None 0 EmptyString s) as [|y l] eqn:E; [congruence|].
  destruct (List.rev (y :: l)) as [|z r] eqn:Er; [|eauto].
  apply (f_equal (@List.length _)) in Er. rewrite length_rev in Er. discriminate.
Qed.

(** What [get_request] returns when it gets as far as answering 200. *)
Lemma get_request_builder_200 (fs : filesystem) (L : urllib) (request : Request.t)
    (b : ResponseBuilder.t) :
  HTTPServer.get_request_builder fs L request = Ok b ->
  ResponseBuilder.status b = Some status_200 ->
  exists mime (fileContents : body),
    b = ResponseBuilder.mk
          ["Content-Type: " +:+ mime; "Connection: close";
           "Content-Length: " +:+ str_of_int (len fileContents)]
          (Some status_200)
          (Some match fileContents with Binary x => x | Text s => encode s end).
Proof.
  unfold HTTPServer.get_request_builder. intros Hb Hst.
  destruct (contains "redirect" (Request.path request)).
  { destruct (build_url L (Request.path request)); cbn [bind] in Hb; [|discriminate].
    injection Hb as <-. vm_compute in Hst. discriminate. }
  destruct (negb (file_exists fs (Request.path request))).
  { destruct (get_file_contents fs "404.html"); cbn [bind] in Hb; [|discriminate].
    injection Hb as <-. vm_compute in Hst. discriminate. }
  destruct (has_permission_other fs (Request.path request)) as [readable|];
    cbn [bind] in Hb; [|discriminate].
  destruct (negb readable).
  { destruct (get_file_contents fs "403.html"); cbn [bind] in Hb; [|discriminate].
    injection Hb as <-. vm_compute in Hst. discriminate. }
  destruct (last_item (split "." (Request.path request))) as [ext|];
    cbn [bind] in Hb; [|discriminate].
  destruct (should_return_binary ext).
  - destruct (get_file_binary_contents fs (Request.path request)) as [x|];
      cbn [bind] in Hb; [|discriminate].
    injection Hb as <-. exists (get_file_mime_type ext), (Binary x). reflexivity.
  - destruct (get_file_contents fs (Request.path request)) as [x|];
      cbn [bind] in Hb; [|discriminate].
    injection Hb as <-. exists (get_file_mime_type ext), (Text x). reflexivity.
Qed.

(** What [post_request] returns whenever it returns. *)
Lemma post_request_builder_ok (L : urllib) (request : Request.t) (b : ResponseBuilder.t) :
  HTTPServer.post_request_builder L request = Ok b ->
  exists html : str,
    b = ResponseBuilder.mk
          ["Allow: POST"; "Content-Length: " +:+ str_of_int (str_len html)]
          (Some status_200) (Some (encode html)).
Proof.
  unfold HTTPServer.post_request_builder. intros Hb.
  destruct (parse_post_request (unquote_plus L (Request.content request))) as [html|];
    cbn [bind] in Hb; [|discriminate].
  injection Hb as <-. exists html. reflexivity.
Qed.

(** C6, as the code has it.  A 200 answer of the GET handler carries
    Content-Type, Connection and Content-Length.  A 200 answer of the POST
    handler carries Content-Length and Allow, and neither Content-Type nor
    Connection.  (The HEAD handler, which also answers 200, is not among
    the two.) *)
Theorem C6_headers_of_200_responses (h : handler) (fs : filesystem) (L : urllib)
    (request : Request.t) (b : ResponseBuilder.t) :
  handler_builder h fs L request = Ok b ->
  ResponseBuilder.status b = Some status_200 ->
  has_header "Content-Length" b = true
  /\ match h with
     | GetHandler =>
         has_header "Content-Type" b = true /\ has_header "Connection" b = true
     | PostHandler =>
         has_header "Allow" b = true
         /\ has_header "Content-Type" b = false /\ has_header "Connection" b = false
     end.
Proof.
  destruct h; cbn [handler_builder]; intros Hb Hst.
  - destruct (get_request_builder_200 _ _ _ _ Hb Hst) as (mime & fc & ->).
    repeat split; reflexivity.
  - destruct (post_request_builder_ok _ _ _ Hb) as (html & ->).
    repeat split; reflexivity.
Qed.

Lemma C6_headers_of_200_responses_witness :
  has_header "Content-Length"
    (ResponseBuilder.mk ["Content-Type: text/html"; "Connection: close"; "Content-Length: 9"]
       (Some status_200) (Some "<p>hi</p>")) = true
  /\ has_header "Content-Type"
       (ResponseBuilder.mk ["Content-Type: text/html"; "Connection: close"; "Content-Length: 9"]
          (Some status_200) (Some "<p>hi</p>")) = true
  /\ has_header "Connection"
       (ResponseBuilder.mk ["Content-Type: text/html"; "Connection: close"; "Content-Length: 9"]
          (Some status_200) (Some "<p>hi</p>")) = true.
Proof.
  apply (C6_headers_of_200_responses GetHandler Demo.site Demo.plain_urllib
           (Demo.request "GET" "index.html" EmptyString));
    vm_compute; reflexivity.
Defined.

(** C6, as stated, fails: the 200 answer to a POST of [a=1&b=2] has the
    headers Allow and Content-Length only. *)
Lemma C6_post_200_lacks_headers :
  ~ (forall (h : handler) fs L request b,
        handler_builder h fs L request = Ok b ->
        ResponseBuilder.status b = Some status_200 ->
        has_header "Content-Type" b = true
        /\ has_header "Connection" b = true
        /\ has_header "Content-Length" b = true).
Proof.
  intros Hall.
  destruct (Hall PostHandler Demo.site Demo.plain_urllib
              (Demo.request "POST" "form" "a=1&b=2")
              (ResponseBuilder.mk ["Allow: POST"; "Content-Length: 73"]
                 (Some status_200) (Some Demo.two_rows)))
    as (Htype & _); [vm_compute; reflexivity | reflexivity |].
  vm_compute in Htype. discriminate.
Qed.

(** ** Sequences of builder calls *)

Import Calls.

Lemma run_from_app (b : ResponseBuilder.t) (l1 l2 : list call) :
  run_from b (l1 ++ l2)%list = run_from (run_from b l1) l2.
Proof. apply foldl_app. Qed.

Lemma run_from_cons (b : ResponseBuilder.t) (c : call) (l : list call) :
  run_from b (c :: l) = run_from (apply c b) l.
Proof. reflexivity. Qed.

(** [set_content] changes neither the status nor the headers, of this
    call or of any later one. *)
Lemma run_from_without_content (calls : list call) :
  forall b b',
    headers b = headers b' -> status b = status b' ->
    headers (run_from b calls) = headers (run_from b' (without_content calls))
    /\ status (run_from b calls) = status (run_from b' (without_content calls)).
Proof.
  induction calls as [|c calls IH]; intros b b' Hh Hs; [now split|].
  destruct c as [code msg|k v|c]; cbn [without_content List.filter is_set_content negb];
    rewrite !run_from_cons; fold (without_content calls); apply IH; cbn;
    try assumption; try reflexivity.
  now rewrite Hh.
Qed.

Lemma run_from_keeps_content (calls : list call) :
  forall b,
    forallb (fun c => negb (is_set_content c)) calls = true ->
    content (run_from b calls) = content b.
Proof.
  induction calls as [|c calls IH]; intros b Hno; [reflexivity|].
  cbn [forallb] in Hno. apply andb_true_iff in Hno as [Hc Hno].
  rewrite run_from_cons, (IH _ Hno).
  destruct c; [reflexivity | reflexivity | discriminate].
Qed.

Lemma without_content_clear (calls : list call) :
  forallb (fun c => negb (is_set_content c)) (without_content calls) = true.
Proof.
  induction calls as [|c calls IH]; [reflexivity|].
  cbn [without_content List.filter].
  destruct (negb (is_set_content c)) eqn:E; [|exact IH].
  cbn [forallb]. rewrite E. exact IH.
Qed.

Lemma without_content_app (l1 l2 : list call) :
  without_content (l1 ++ l2)%list = (without_content l1 ++ without_content l2)%list.
Proof. apply List.filter_app. Qed.

(** [build] reads the content only to test it and to append it: an empty
    one and none at all give the same bytes. *)
Lemma build_empty_content (b b' : ResponseBuilder.t) (e : bytes) :
  headers b = headers b' -> status b = status b' ->
  content b = Some e -> is_empty e = true -> content b' = None ->
  build b = build b'.
Proof.
  intros Hh Hs Hc He Hc'. unfold build. rewrite Hh, Hs, Hc, Hc', He.
  now destruct (status b').
Qed.

Lemma set_content_empty (c : body) (b : ResponseBuilder.t) :
  empty_body c = true ->
  exists e, content (set_content c b) = Some e /\ is_empty e = true.
Proof. destruct c as [s|x]; intros He; eexists; split; try reflexivity; exact He. Qed.

(** C10.  If the last [set_content] of a builder was given the empty
    string or empty bytes, [build] returns what it returns when all
    [set_content] calls are left out.  So a GET for an existing, readable,
    empty file is answered 200 with [Content-Length: 0] and nothing after
    the blank line. *)
Theorem C10_empty_content_builds_as_none (before after : list call) (c : body)
    (fs : filesystem) (L : urllib) (request : Request.t) :
  empty_body c = true ->
  forallb (fun x => negb (is_set_content x)) after = true ->
  contains "redirect" (Request.path request) = false ->
  file_exists fs (Request.path request) = true ->
  has_permission_other fs (Request.path request) = Ok true ->
  get_file_contents fs (Request.path request) = Ok EmptyString ->
  get_file_binary_contents fs (Request.path request) = Ok EmptyString ->
  build (run (before ++ SetContent c :: after))
    = build (run (without_content (before ++ after)))
  /\ exists mime,
       HTTPServer.get_request_builder fs L request
         = Ok (ResponseBuilder.mk
                 ["Content-Type: " +:+ mime; "Connection: close"; "Content-Length: 0"]
                 (Some status_200) (Some EmptyString))
       /\ HTTPServer.get_request fs L request
         = Ok (status_200 +:+ NEWLINE +:+ "Content-Type: " +:+ mime +:+ NEWLINE
                 +:+ "Connection: close" +:+ NEWLINE +:+ "Content-Length: 0"
                 +:+ NEWLINE +:+ NEWLINE).
Proof.
  intros Hempty Hafter Hredirect Hexists Hperm Htext Hbin. split.
  - destruct (set_content_empty c (run before) Hempty) as (e & Hc & He).
    destruct (run_from_without_content (before ++ SetContent c :: after) init init
                eq_refl eq_refl) as [Hh Hs].
    assert (Hw : without_content (before ++ SetContent c :: after)
                 = without_content (before ++ after)).
    { now rewrite !without_content_app. }
    rewrite Hw in Hh, Hs.
    apply (build_empty_content _ _ e Hh Hs); [|exact He|].
    + unfold run. rewrite run_from_app, run_from_cons.
      rewrite (run_from_keeps_content after _ Hafter). exact Hc.
    + unfold run. now rewrite (run_from_keeps_content _ _ (without_content_clear _)).
  - destruct (last_item_split "." (Request.path request)) as [ext Hext].
    exists (get_file_mime_type ext).
    assert (Hb : HTTPServer.get_request_builder fs L request
                 = Ok (ResponseBuilder.mk
                         ["Content-Type: " +:+ get_file_mime_type ext;
                          "Connection: close"; "Content-Length: 0"]
                         (Some status_200) (Some EmptyString))).
    { unfold HTTPServer.get_request_builder.
      rewrite Hredirect, Hexists. cbn [negb]. rewrite Hperm. cbn [bind negb].
      rewrite Hext. cbn [bind].
      destruct (should_return_binary ext); [rewrite Hbin | rewrite Htext]; reflexivity. }
    split; [exact Hb|].
    unfold HTTPServer.get_request. rewrite Hb. cbn [bind]. unfold build.
    cbn [status headers content is_empty join]. unfold encode.
    now rewrite !append_assoc.
Qed.

Lemma C10_empty_content_builds_as_none_witness :
  build (run ([SetStatus (Str "200") "OK"; SetContent (Text "old")]
                ++ SetContent (Binary EmptyString) :: [AddHeader "Content-Length" (Int 0)]))
    = build (run (without_content
                    ([SetStatus (Str "200") "OK"; SetContent (Text "old")]
                       ++ [AddHeader "Content-Length" (Int 0)])))
  /\ exists mime,
       HTTPServer.get_request_builder Demo.site Demo.plain_urllib
           (Demo.request "GET" "empty.txt" EmptyString)
         = Ok (ResponseBuilder.mk
                 ["Content-Type: " +:+ mime; "Connection: close"; "Content-Length: 0"]
                 (Some status_200) (Some EmptyString))
       /\ HTTPServer.get_request Demo.site Demo.plain_urllib
            (Demo.request "GET" "empty.txt" EmptyString)
         = Ok (status_200 +:+ NEWLINE +:+ "Content-Type: " +:+ mime +:+ NEWLINE
                 +:+ "Connection: close" +:+ NEWLINE +:+ "Content-Length: 0"
                 +:+ NEWLINE +:+ NEWLINE).
Proof.
  apply (C10_empty_content_builds_as_none
           [SetStatus (Str "200") "OK"; SetContent (Text "old")]
           [AddHeader "Content-Length" (Int 0)] (Binary EmptyString)
           Demo.site Demo.plain_urllib (Demo.request "GET" "empty.txt" EmptyString));
    vm_compute; reflexivity.
Defined.

(** ** The framer always answers *)

Lemma length_drop (n : nat) (s : string) :
  String.length (drop n s) = (String.length s - n)%nat.
Proof.
  revert s; induction n as [|n IH]; intros [|c s]; simpl; try reflexivity.
  apply IH.
Qed.

(** A [recv] that returns data leaves less to read. *)
Lemma recv_shrinks (n : Z) (sock sock' : Socket.t) (data : bytes) :
  Socket.recv n sock = (data, sock') ->
  is_empty data = false ->
  (Socket.reads sock' < Socket.reads sock)%nat.
Proof.
  unfold Socket.recv. destruct sock as [|seg rest].
  { intros [= <- <-]. discriminate. }
  destruct (n <=? 0) eqn:Hn; [intros [= <- <-]; discriminate|].
  destruct (bytes_len seg <=? n) eqn:Hlen; intros [= <- <-] _; cbn [Socket.reads].
  - lia.
  - rewrite length_drop. unfold bytes_len in Hlen. lia.
Qed.

Lemma header_loop_total (fuel : nat) :
  forall sock header_data,
    (Socket.reads sock < fuel)%nat ->
    exists h, Framer.header_loop fuel sock header_data = Some h.
Proof.
  induction fuel as [|fuel IH]; intros sock hd Hfuel; [lia|].
  cbn [Framer.header_loop].
  destruct (Socket.recv BUFF_SIZE sock) as [data sock'] eqn:Hrecv.
  destruct (is_empty data) eqn:Hdata; [eauto|].
  destruct (contains HTTP_REQ_HEADER_END data); [eauto|].
  apply IH. pose proof (recv_shrinks _ _ _ _ Hrecv Hdata). lia.
Qed.

Lemma content_loop_total (fuel : nat) :
  forall sock content,
    (Socket.reads sock < fuel)%nat ->
    exists c, Framer.content_loop fuel sock content = Some c.
Proof.
  induction fuel as [|fuel IH]; intros sock c Hfuel; [lia|].
  cbn [Framer.content_loop].
  destruct (Socket.recv BUFF_SIZE sock) as [data sock'] eqn:Hrecv.
  destruct (is_empty data) eqn:Hdata; [eauto|].
  apply IH. pose proof (recv_shrinks _ _ _ _ Hrecv Hdata). lia.
Qed.

Lemma read_content_total (U : unicode) (header_kvs : gmap string string) (h : Framer.head) :
  exists body, Framer.read_content U header_kvs h = Some body.
Proof.
  unfold Framer.read_content.
  destruct (Framer.content_bytes_read h =? 0); [eauto|].
  destruct (header_kvs !! "content-length"); [eauto|].
  destruct (content_loop_total (S (Socket.reads (Framer.rest h))) (Framer.rest h)
              (Framer.content h)) as [c ->]; [lia | eauto].
Qed.

(** The fuel the framer gives its loops is enough: on every socket it
    either returns a request or raises. *)
Lemma recv_until_crlfs_total (U : unicode) (sock : Socket.t) :
  exists r, Framer.recv_until_crlfs U sock = Some r.
Proof.
  unfold Framer.recv_until_crlfs.
  destruct (header_loop_total (S (Socket.reads sock)) sock EmptyString) as [h ->]; [lia|].
  destruct (Framer.parse_head U (Framer.header_data h)) as [[header_list header_kvs]|e];
    [|eauto].
  destruct (read_content_total U header_kvs h) as [body ->]. eauto.
Qed.

(** ** An empty start line *)

Lemma request_init_empty (headers : gmap string string) (content : str) :
  Request.init EmptyString headers content = Raise ValueError.
Proof. reflexivity. Qed.

Lemma first_item_hd (l : list string) : l <> [] -> first_item l = Ok (hd EmptyString l).
Proof. destruct l; [congruence | reflexivity]. Qed.

(** C9, as the code has it.  When the header text the framer has
    accumulated starts with an empty line, [recv_until_crlfs] raises: if
    nothing fails earlier, [Request.__init__] finds no words to unpack and
    raises [ValueError].  No handler catches it, in the framer or in
    [accept_request], so it leaves both. *)
Theorem C9_empty_start_line_raises (U : unicode) (fs : filesystem) (L : urllib)
    (sock : Socket.t) :
  start_line_of sock = Some EmptyString ->
  (forall headers content, Request.init EmptyString headers content = Raise ValueError)
  /\ exists e,
       Framer.recv_until_crlfs U sock = Some (Raise e)
       /\ HTTPServer.accept_request fs L U sock = Some (Raise e).
Proof.
  intros Hstart. split; [exact request_init_empty|].
  assert (Hraise : exists e, Framer.recv_until_crlfs U sock = Some (Raise e)).
  { unfold start_line_of in Hstart. unfold Framer.recv_until_crlfs.
    destruct (Framer.header_loop (S (Socket.reads sock)) sock EmptyString) as [h|];
      [|discriminate].
    injection Hstart as Hstart.
    unfold Framer.parse_head, decode.
    destruct (utf8_valid (Framer.header_data h)); cbn [bind]; [|eauto].
    destruct (mapM (Framer.to_tuple U) (tail (split NEWLINE (Framer.header_data h))))
      as [kvs|e]; cbn [bind]; [|eauto].
    destruct (read_content_total U (Framer.dict kvs) h) as [body ->].
    destruct body as [content|e]; cbn [bind]; [|eauto].
    rewrite first_item_hd by apply split_aux_not_nil.
    rewrite Hstart. cbn [bind].
    destruct (utf8_valid content); cbn [bind]; eauto. }
  destruct Hraise as [e He]. exists e. split; [exact He|].
  unfold HTTPServer.accept_request. now rewrite He.
Qed.

Lemma C9_empty_start_line_raises_witness :
  exists e,
    Framer.recv_until_crlfs Demo.ascii_only [NEWLINE +:+ "Host: x" +:+ NEWLINE +:+ NEWLINE]
      = Some (Raise e)
    /\ HTTPServer.accept_request Demo.site Demo.plain_urllib Demo.ascii_only
         [NEWLINE +:+ "Host: x" +:+ NEWLINE +:+ NEWLINE]
      = Some (Raise e).
Proof.
  apply (C9_empty_start_line_raises Demo.ascii_only Demo.site Demo.plain_urllib
           [NEWLINE +:+ "Host: x" +:+ NEWLINE +:+ NEWLINE]).
  vm_compute; reflexivity.
Defined.

(** C9, as stated, fails: on a stream that opens with an empty line the
    framer lets a [ValueError] out. *)
Lemma C9_empty_start_line_exception_escapes :
  ~ (forall (U : unicode) (sock : Socket.t),
        start_line_of sock = Some EmptyString ->
        forall e, Framer.recv_until_crlfs U sock <> Some (Raise e)).
Proof.
  intros Hall.
  apply (Hall Demo.ascii_only [NEWLINE +:+ "Host: x" +:+ NEWLINE +:+ NEWLINE]
           eq_refl ValueError).
  vm_compute; reflexivity.
Qed.

(** ** Where the first blank line of a response is *)

Lemma header_end_unfold :
  HTTP_REQ_HEADER_END = String CR (String LF (String CR (String LF EmptyString))).
Proof. reflexivity. Qed.

Lemma no_cr_cons (c : ascii) (s : string) :
  no_cr (String c s) = true -> Ascii.eqb CR c = false /\ no_cr s = true.
Proof.
  unfold no_cr. cbn [forallb_str]. intros H. apply andb_true_iff in H as [Hc Hs].
  split; [|exact Hs]. rewrite Ascii.eqb_sym. now apply negb_true_iff.
Qed.

Lemma no_cr_append (a b : string) :
  no_cr a = true -> no_cr b = true -> no_cr (a +:+ b) = true.
Proof.
  intros Ha Hb. induction a as [|c a IH]; [exact Hb|].
  rewrite append_cons. unfold no_cr in *. cbn [forallb_str] in *.
  apply andb_true_iff in Ha as [Hc Ha]. rewrite Hc. now apply IH.
Qed.

Lemma find_from_skip_char (c : ascii) (s : string) (i : nat) :
  Ascii.eqb CR c = false ->
  find_from HTTP_REQ_HEADER_END (String c s) i = find_from HTTP_REQ_HEADER_END s (S i).
Proof.
  intros Hc. rewrite header_end_unfold. cbn [find_from starts_with]. now rewrite Hc.
Qed.

(** A line without carriage return holds no terminator, nor the start of one. *)
Lemma find_from_skip_line (line rest : string) :
  forall i,
    no_cr line = true ->
    find_from HTTP_REQ_HEADER_END (line +:+ rest) i
      = find_from HTTP_REQ_HEADER_END rest (i + String.length line).
Proof.
  induction line as [|c line IH]; intros i Hline.
  - rewrite append_nil. cbn [String.length]. now rewrite Nat.add_0_r.
  - apply no_cr_cons in Hline as [Hc Hline].
    rewrite append_cons, (find_from_skip_char _ _ _ Hc), (IH _ Hline).
    cbn [String.length]. f_equal. lia.
Qed.

(** A line break followed by the first character of a line is no terminator. *)
Lemma find_from_skip_newline (c : ascii) (rest : string) (i : nat) :
  Ascii.eqb CR c = false ->
  find_from HTTP_REQ_HEADER_END (NEWLINE +:+ String c rest) i
    = find_from HTTP_REQ_HEADER_END (String c rest) (i + 2).
Proof.
  intros Hc. rewrite header_end_unfold.
  change (NEWLINE +:+ String c rest) with (String CR (String LF (String c rest))).
  cbn [find_from starts_with]. rewrite Hc.
  replace (i + 2)%nat with (S (S i)) by lia. reflexivity.
Qed.

Lemma find_from_here (rest : string) (i : nat) :
  find_from HTTP_REQ_HEADER_END (HTTP_REQ_HEADER_END +:+ rest) i = Some i.
Proof. reflexivity. Qed.

Lemma line_ok_head (h : str) :
  line_ok h -> exists c t, h = String c t /\ Ascii.eqb CR c = false /\ no_cr t = true.
Proof.
  intros [Hcr Hne]. destruct h as [|c t]; [discriminate|].
  apply no_cr_cons in Hcr as [Hc Ht]. eauto.
Qed.

Lemma join_cons2 (sep h h' : string) (t : list string) :
  join sep (h :: h' :: t) = h +:+ sep +:+ join sep (h' :: t).
Proof. reflexivity. Qed.

(** A non-empty list of lines, joined: it starts with the first
    character of its first line. *)
Lemma join_starts (hs : list str) :
  hs <> [] -> Forall line_ok hs ->
  exists c t, join NEWLINE hs = String c t /\ Ascii.eqb CR c = false.
Proof.
  intros Hne Hok. destruct hs as [|h hs]; [congruence|].
  apply Forall_cons in Hok as [Hh _].
  destruct (line_ok_head h Hh) as (c & t & -> & Hc & _).
  destruct hs as [|h' hs].
  - exists c, t. now split.
  - rewrite join_cons2, append_cons. eauto.
Qed.

Lemma find_in_lines (hs : list str) :
  forall i body,
    hs <> [] -> Forall line_ok hs ->
    find_from HTTP_REQ_HEADER_END (join NEWLINE hs +:+ HTTP_REQ_HEADER_END +:+ body) i
      = Some (i + String.length (join NEWLINE hs))%nat.
Proof.
  induction hs as [|h hs IH]; intros i body Hne Hok; [congruence|].
  pose proof Hok as Hok'. apply Forall_cons in Hok' as [[Hcr _] Hrest].
  destruct hs as [|h' hs].
  - cbn [join]. now rewrite (find_from_skip_line _ _ _ Hcr), find_from_here.
  - rewrite join_cons2, !append_assoc, (find_from_skip_line _ _ _ Hcr).
    destruct (join_starts (h' :: hs)) as (c & t & Hj & Hc); [discriminate | exact Hrest |].
    rewrite Hj at 1. rewrite append_cons, (find_from_skip_newline _ _ _ Hc).
    rewrite <- append_cons, <- Hj.
    rewrite IH by (try discriminate; exact Hrest).
    f_equal. rewrite !length_append. change (String.length NEWLINE) with 2%nat.
    rewrite <- !Nat.add_assoc. reflexivity.
Qed.

(** The layout of what [build] returns. *)
Lemma build_layout (b : ResponseBuilder.t) (st : str) :
  status b = Some st ->
  build b = Ok (head_text b +:+ HTTP_REQ_HEADER_END +:+ body_bytes b).
Proof.
  intros Hst. unfold build, head_text, body_bytes, encode. rewrite Hst. cbn [default].
  change HTTP_REQ_HEADER_END with (NEWLINE +:+ NEWLINE).
  destruct (content b) as [[|c body]|]; cbn [default is_empty];
    rewrite ?append_empty_r, ?append_assoc; reflexivity.
Qed.

Lemma find_in_response (st : str) (hs : list str) (body : bytes) :
  no_cr st = true -> hs <> [] -> Forall line_ok hs ->
  find_from HTTP_REQ_HEADER_END
      ((st +:+ NEWLINE +:+ join NEWLINE hs) +:+ HTTP_REQ_HEADER_END +:+ body) O
    = Some (String.length (st +:+ NEWLINE +:+ join NEWLINE hs)).
Proof.
  intros Hst Hne Hok.
  rewrite !append_assoc, (find_from_skip_line _ _ _ Hst).
  destruct (join_starts hs Hne Hok) as (c & t & Hj & Hc).
  rewrite Hj at 1. rewrite append_cons, (find_from_skip_newline _ _ _ Hc).
  rewrite <- append_cons, <- Hj, (find_in_lines hs _ _ Hne Hok).
  f_equal. rewrite !length_append. change (String.length NEWLINE) with 2%nat.
  rewrite <- ?Nat.add_assoc. reflexivity.
Qed.

(** Taking a message apart at a terminator that is known to be its first. *)
Lemma split_message_at (head body : bytes) :
  find_from HTTP_REQ_HEADER_END (head +:+ HTTP_REQ_HEADER_END +:+ body) O
    = Some (String.length head) ->
  split_message (head +:+ HTTP_REQ_HEADER_END +:+ body) = Some (head, body).
Proof.
  intros Hfind. unfold split_message, contains, find, slice_to, slice_from, clip, bytes_len.
  rewrite Hfind.
  assert (Hlen : String.length (head +:+ HTTP_REQ_HEADER_END +:+ body)
                 = (String.length head + (4 + String.length body))%nat).
  { now rewrite !length_append. }
  rewrite Hlen.
  replace (Z.of_nat (String.length head) <? 0) with false by (symmetry; apply Z.ltb_ge; lia).
  replace (Z.of_nat (String.length head) + 4 <? 0) with false
    by (symmetry; apply Z.ltb_ge; lia).
  rewrite Z.min_l by lia. rewrite Z.min_l by lia.
  rewrite Nat2Z.id, take_append.
  replace (Z.to_nat (Z.of_nat (String.length head) + 4))
    with (String.length (head +:+ HTTP_REQ_HEADER_END))
    by (rewrite length_append; cbn [String.length HTTP_REQ_HEADER_END]; simpl; lia).
  now rewrite <- append_assoc, drop_append.
Qed.

(** ** What clean calls leave in the builder *)

Lemma no_cr_uint (d : Decimal.uint) : no_cr (NilEmpty.string_of_uint d) = true.
Proof. induction d; [reflexivity | exact IHd ..]. Qed.

Lemma no_cr_str_of_int (n : Z) : no_cr (str_of_int n) = true.
Proof.
  unfold str_of_int, NilZero.string_of_int, NilZero.string_of_uint.
  destruct (Z.to_int n) as [d|d]; destruct d; try reflexivity;
    first [ apply (no_cr_uint (_ _))
          | apply (no_cr_append "-"); [reflexivity | apply (no_cr_uint (_ _))] ].
Qed.

Lemma no_cr_format (v : value) : value_no_cr v = true -> no_cr (format v) = true.
Proof.
  destruct v as [s|n|]; intros Hv;
    [exact Hv | apply no_cr_str_of_int | reflexivity].
Qed.

Lemma header_line_ok (k : str) (v : value) :
  no_cr k = true -> value_no_cr v = true -> line_ok (k +:+ ": " +:+ format v).
Proof.
  intros Hk Hv. split.
  - apply no_cr_append; [exact Hk|].
    apply (no_cr_append ": "); [reflexivity | now apply no_cr_format].
  - now destruct k.
Qed.

Lemma apply_tidy (c : call) (b : ResponseBuilder.t) :
  clean c = true -> tidy b -> tidy (apply c b).
Proof.
  intros Hc [Hh Hs]. destruct c as [code msg|k v|c]; cbn in Hc |- *.
  - apply andb_true_iff in Hc as [Hcode Hmsg]. split; [exact Hh|].
    cbn [status set_status]. intros st [= <-].
    apply (no_cr_append "HTTP/1.1 "); [reflexivity|].
    apply no_cr_append; [now apply no_cr_format|].
    apply (no_cr_append " "); [reflexivity | exact Hmsg].
  - apply andb_true_iff in Hc as [Hk Hv]. split; [|exact Hs].
    cbn [headers add_header]. apply Forall_app. split; [exact Hh|].
    apply Forall_cons. split; [now apply header_line_ok | apply Forall_nil_2].
  - split; assumption.
Qed.

Lemma run_from_tidy (calls : list call) :
  forall b, forallb clean calls = true -> tidy b -> tidy (run_from b calls).
Proof.
  induction calls as [|c calls IH]; intros b Hclean Hb; [exact Hb|].
  cbn [forallb] in Hclean. apply andb_true_iff in Hclean as [Hc Hclean].
  rewrite run_from_cons. apply IH; [exact Hclean | now apply apply_tidy].
Qed.

Lemma run_from_status (calls : list call) :
  forall b,
    existsb is_set_status calls = true \/ is_Some (status b) ->
    is_Some (status (run_from b calls)).
Proof.
  induction calls as [|c calls IH]; intros b [Hset|Hb]; try discriminate;
    try exact Hb; rewrite run_from_cons; apply IH.
  - cbn [existsb] in Hset. apply orb_true_iff in Hset as [Hc|Hset]; [|now left].
    right. destruct c; try discriminate. now eexists.
  - right. destruct c; cbn; try exact Hb. now eexists.
Qed.

Lemma run_from_headers (calls : list call) :
  forall b,
    existsb is_add_header calls = true \/ headers b <> [] ->
    headers (run_from b calls) <> [].
Proof.
  induction calls as [|c calls IH]; intros b [Hadd|Hb]; try discriminate;
    try exact Hb; rewrite run_from_cons; apply IH.
  - cbn [existsb] in Hadd. apply orb_true_iff in Hadd as [Hc|Hadd]; [|now left].
    right. destruct c; try discriminate. cbn. now destruct (headers b).
  - right. destruct c; cbn; try exact Hb. now destruct (headers b).
Qed.

(** C3, as the code has it.  After calls that set a status and add at
    least one header, with no carriage return in the texts given to
    [set_status] and [add_header], [build] returns the status line and the
    header lines joined by CRLF, then CRLF CRLF, then the content.  That
    CRLF CRLF is the first of the output: a reader who cuts there gets
    the head before it and exactly the content after it, which is nothing
    when [set_content] was never called. *)
Theorem C3_build_separates_once (calls : list call) :
  existsb is_set_status calls = true ->
  existsb is_add_header calls = true ->
  forallb clean calls = true ->
  exists out,
    build (run calls) = Ok out
    /\ out = head_text (run calls) +:+ HTTP_REQ_HEADER_END +:+ body_bytes (run calls)
    /\ split_message out = Some (head_text (run calls), body_bytes (run calls))
    /\ (forallb (fun c => negb (is_set_content c)) calls = true ->
        split_message out = Some (head_text (run calls), EmptyString)).
Proof.
  intros Hset Hadd Hclean.
  destruct (run_from_status calls init (or_introl Hset)) as [st Hst].
  pose proof (run_from_headers calls init (or_introl Hadd)) as Hne.
  destruct (run_from_tidy calls init Hclean) as [Hok Hcr].
  { split; [apply Forall_nil_2 | discriminate]. }
  fold (run calls) in Hst, Hne, Hok, Hcr.
  assert (Hsplit : split_message
                     (head_text (run calls) +:+ HTTP_REQ_HEADER_END +:+ body_bytes (run calls))
                   = Some (head_text (run calls), body_bytes (run calls))).
  { apply split_message_at. unfold head_text. rewrite Hst. cbn [default].
    apply find_in_response; [now apply Hcr | exact Hne | exact Hok]. }
  eexists. split; [exact (build_layout _ _ Hst)|].
  split; [reflexivity|]. split; [exact Hsplit|].
  intros Hnone. rewrite Hsplit. unfold body_bytes, run.
  now rewrite (run_from_keeps_content calls init Hnone).
Qed.

Lemma C3_build_separates_once_witness :
  exists out,
    build (run [SetStatus (Str "405") "METHOD NOT ALLOWED"; AddHeader "Connection" (Str "close")])
      = Ok out
    /\ out = "HTTP/1.1 405 METHOD NOT ALLOWED" +:+ NEWLINE +:+ "Connection: close"
               +:+ HTTP_REQ_HEADER_END +:+ EmptyString
    /\ split_message out
       = Some ("HTTP/1.1 405 METHOD NOT ALLOWED" +:+ NEWLINE +:+ "Connection: close",
               EmptyString)
    /\ (true = true ->
        split_message out
        = Some ("HTTP/1.1 405 METHOD NOT ALLOWED" +:+ NEWLINE +:+ "Connection: close",
                EmptyString)).
Proof.
  apply (C3_build_separates_once
           [SetStatus (Str "405") "METHOD NOT ALLOWED"; AddHeader "Connection" (Str "close")]);
    reflexivity.
Defined.

(** C3, as stated, fails: a builder with a status and no header is built
    with three line breaks in a row, and the bytes after the first blank
    line are a line break, not the (absent) content. *)
Lemma C3_status_alone_two_blank_lines :
  ~ (forall calls, existsb is_set_status calls = true -> separated_once (run calls)).
Proof.
  intros Hall.
  destruct (Hall [SetStatus (Str "405") "METHOD NOT ALLOWED"] eq_refl)
    as (out & head & Hbuild & Hsplit).
  vm_compute in Hbuild. injection Hbuild as <-.
  vm_compute in Hsplit. discriminate.
Qed.


(** * Further properties *)

(** ** Splitting and joining *)

Lemma rev_app_rev_app (a b c : string) :
  String.rev_app (String.rev_app a b) c = String.rev_app b (a +:+ c).
Proof.
  revert b c; induction a as [|x a IH]; intros b c; [reflexivity|].
  cbn [String.rev_app]. now rewrite IH, append_cons.
Qed.

Lemma rev_rev_app (a b : string) : String.rev (String.rev_app a b) = String.rev_app b a.
Proof. unfold String.rev. now rewrite rev_app_rev_app, append_empty_r. Qed.

Lemma free_of_cons (c x : ascii) (s : string) :
  free_of c (String x s) = true -> Ascii.eqb c x = false /\ free_of c s = true.
Proof.
  unfold free_of. cbn [forallb_str]. intros H. apply andb_true_iff in H as [Hx Hs].
  split; [|exact Hs]. rewrite Ascii.eqb_sym. now apply negb_true_iff.
Qed.

Lemma free_of_append (c : ascii) (a b : string) :
  free_of c a = true -> free_of c b = true -> free_of c (a +:+ b) = true.
Proof.
  intros Ha Hb. induction a as [|x a IH]; [exact Hb|].
  rewrite append_cons. unfold free_of in *. cbn [forallb_str] in *.
  apply andb_true_iff in Ha as [Hx Ha]. rewrite Hx. now apply IH.
Qed.

Lemma starts_with_append (p s : string) : starts_with p (p +:+ s) = true.
Proof.
  induction p as [|x p IH]; [reflexivity|].
  rewrite append_cons. cbn [starts_with]. now rewrite Ascii.eqb_refl, IH.
Qed.

Section Separator.
Variable c0 : ascii.
Variable sep' : string.
Let sep : string := String c0 sep'.

(** A piece without the separator's first character is read through. *)
Lemma split_aux_piece (a : string) :
  forall budget cur rest,
    free_of c0 a = true ->
    split_aux sep budget O cur (a +:+ rest)
      = split_aux sep budget O (String.rev_app a cur) rest.
Proof.
  induction a as [|x a IH]; intros budget cur rest Ha; [reflexivity|].
  apply free_of_cons in Ha as [Hx Ha].
  rewrite append_cons. cbn [split_aux String.rev_app]. unfold sep at 1.
  cbn [starts_with]. rewrite Hx. cbn [andb]. now apply IH.
Qed.

Lemma split_aux_skip (a : string) :
  forall budget cur rest,
    split_aux sep budget (String.length a) cur (a +:+ rest)
      = split_aux sep budget O cur rest.
Proof.
  induction a as [|x a IH]; intros budget cur rest.
  - rewrite append_nil. now destruct rest.
  - rewrite append_cons. cbn [split_aux String.length]. apply IH.
Qed.

(** At a separator a piece ends, as long as splits are allowed. *)
Lemma split_aux_sep (budget budget' : option nat) (cur rest : string) :
  spend budget = Some budget' ->
  split_aux sep budget O cur (sep +:+ rest)
    = String.rev cur :: split_aux sep budget' O EmptyString rest.
Proof.
  intros Hspend. unfold sep at 2. rewrite append_cons. cbn [split_aux].
  fold sep. change (String c0 (sep' +:+ rest)) with (sep +:+ rest).
  rewrite starts_with_append, Hspend. f_equal.
  unfold sep at 2. cbn [String.length Nat.pred]. apply split_aux_skip.
Qed.

(** With no split left, the rest is one piece. *)
Lemma split_aux_spent (s : string) :
  forall cur, split_aux sep (Some O) O cur s = [String.rev_app cur s].
Proof.
  induction s as [|x s IH]; intros cur.
  - reflexivity.
  - cbn [split_aux spend].
    destruct (starts_with sep (String x s)); rewrite IH; reflexivity.
Qed.

(** Splitting what was joined gives the pieces back. *)
Lemma split_join (parts : list string) :
  parts <> [] -> Forall (fun p => free_of c0 p = true) parts ->
  split sep (join sep parts) = parts.
Proof.
  unfold split. induction parts as [|p parts IH]; intros Hne Hfree; [congruence|].
  apply Forall_cons in Hfree as [Hp Hfree].
  destruct parts as [|q parts].
  - cbn [join]. rewrite <- (append_empty_r p), (split_aux_piece p _ _ _ Hp).
    cbn [split_aux]. rewrite rev_rev_app. cbn [String.rev_app].
    now rewrite append_empty_r.
  - rewrite join_cons2, (split_aux_piece p _ _ _ Hp), (split_aux_sep None None) by reflexivity.
    rewrite rev_rev_app. cbn [String.rev_app]. f_equal. now apply IH.
Qed.

(** The first separator is where [split(sep, 1)] cuts. *)
Lemma split_max_one (k v : string) :
  free_of c0 k = true -> split_max sep 1 (k +:+ sep +:+ v) = [k; v].
Proof.
  intros Hk. unfold split_max.
  rewrite (split_aux_piece k _ _ _ Hk), (split_aux_sep (Some 1%nat) (Some O)) by reflexivity.
  now rewrite rev_rev_app, split_aux_spent.
Qed.

Lemma split_max_none (n : nat) (s : string) :
  free_of c0 s = true -> split_max sep n s = [s].
Proof.
  intros Hs. unfold split_max.
  rewrite <- (append_empty_r s), (split_aux_piece s _ _ _ Hs).
  cbn [split_aux]. rewrite rev_rev_app. cbn [String.rev_app].
  now rewrite append_empty_r.
Qed.
End Separator.

(** ** Header lines *)

Lemma lower_char_not_upper (c : ascii) : is_upper (lower_char c) = false.
Proof. destruct c as [[] [] [] [] [] [] [] []]; reflexivity. Qed.

Lemma map_lower_no_upper (s : string) :
  forallb_str (fun c => negb (is_upper c)) (map_str lower_char s) = true.
Proof.
  induction s as [|c s IH]; [reflexivity|].
  cbn [map_str forallb_str]. now rewrite lower_char_not_upper, IH.
Qed.

(** X1.  A header line is cut at its first colon: the name, lower-cased,
    is the key, and everything after that colon, further colons included,
    is the value.  An ASCII name comes out without capital letters. *)
Theorem to_tuple_first_colon (U : unicode) (name value : str) :
  free_of ":" name = true ->
  Framer.to_tuple U (name +:+ ":" +:+ value) = Ok (lower U name, value)
  /\ (is_ascii name = true ->
      forallb_str (fun c => negb (is_upper c)) (lower U name) = true).
Proof.
  intros Hname. split.
  - unfold Framer.to_tuple. now rewrite (split_max_one ":" EmptyString name value Hname).
  - intros Hascii. unfold lower. rewrite Hascii. apply map_lower_no_upper.
Qed.

Lemma to_tuple_first_colon_witness :
  Framer.to_tuple Demo.ascii_only ("Host" +:+ ":" +:+ " a:8080")
    = Ok (lower Demo.ascii_only "Host", " a:8080")
  /\ (is_ascii "Host" = true ->
      forallb_str (fun c => negb (is_upper c)) (lower Demo.ascii_only "Host") = true).
Proof. apply (to_tuple_first_colon Demo.ascii_only "Host" " a:8080"). reflexivity. Defined.

(** X2.  A header line without a colon cannot be unpacked into key and
    value: [to_tuple] raises [ValueError]. *)
Theorem to_tuple_no_colon (U : unicode) (line : str) :
  free_of ":" line = true -> Framer.to_tuple U line = Raise ValueError.
Proof.
  intros Hline. unfold Framer.to_tuple.
  now rewrite (split_max_none ":" EmptyString 1 line Hline).
Qed.

Lemma to_tuple_no_colon_witness :
  Framer.to_tuple Demo.ascii_only "Host localhost" = Raise ValueError.
Proof. apply (to_tuple_no_colon Demo.ascii_only "Host localhost"). reflexivity. Defined.

Lemma dict_snoc (pairs : list (str * str)) (k v : str) :
  Framer.dict (pairs ++ [(k, v)]) = <[k := v]> (Framer.dict pairs).
Proof. unfold Framer.dict. now rewrite foldl_app. Qed.

Lemma foldl_insert_other (k : string) (later : list (str * str)) :
  forall m : gmap string string,
    Forall (fun kv => kv.1 <> k) later ->
    foldl (fun m kv => <[kv.1 := kv.2]> m) m later !! k = m !! k.
Proof.
  induction later as [|[k' v'] later IH]; intros m Hne; [reflexivity|].
  apply Forall_cons in Hne as [Hk Hne]. cbn [foldl]. rewrite (IH _ Hne).
  now apply lookup_insert_ne.
Qed.

(** X3.  In the header map a name that occurs several times keeps the
    value of its last line, and a name no line has is absent. *)
Theorem dict_last_wins (earlier later : list (str * str)) (k v : str) :
  Forall (fun kv => kv.1 <> k) later ->
  Framer.dict (earlier ++ (k, v) :: later) !! k = Some v
  /\ Framer.dict later !! k = None.
Proof.
  intros Hne. split.
  - unfold Framer.dict. rewrite foldl_app. cbn [foldl].
    rewrite (foldl_insert_other k later _ Hne). apply lookup_insert_eq.
  - unfold Framer.dict. now rewrite (foldl_insert_other k later _ Hne).
Qed.

Lemma dict_last_wins_witness :
  Framer.dict ([("host", " a")] ++ ("host", " b") :: [("accept", " */*")]) !! "host"
    = Some " b"
  /\ Framer.dict [("accept", " */*")] !! "host" = None.
Proof.
  apply (dict_last_wins [("host", " a")] [("accept", " */*")] "host" " b").
  repeat constructor; discriminate.
Defined.

(** ** Form bodies *)

Lemma mapM_rows (pairs : list (str * str)) :
  mapM Forms.table_row (map (fun kv => [kv.1; kv.2]) pairs) = Ok (map row_text pairs).
Proof.
  induction pairs as [|[k v] pairs IH]; [reflexivity|].
  cbn [map mapM Forms.table_row bind]. now rewrite IH.
Qed.

Lemma split_pair (kv : str * str) :
  free_of "=" kv.1 = true -> free_of "=" kv.2 = true ->
  split "=" (pair_text kv) = [kv.1; kv.2].
Proof.
  intros Hk Hv.
  apply (split_join "=" EmptyString [kv.1; kv.2]); [discriminate|].
  repeat constructor; assumption.
Qed.

(** X4.  A body of one or more [key=value] fields joined by [&], where
    no key or value contains [&] or [=], is rendered as a table with one
    row per field, in the order of the body. *)
Theorem parse_post_request_rows (pairs : list (str * str)) :
  pairs <> [] ->
  Forall (fun kv => free_of "&" kv.1 = true /\ free_of "=" kv.1 = true
                    /\ free_of "&" kv.2 = true /\ free_of "=" kv.2 = true) pairs ->
  Forms.parse_post_request (join "&" (map pair_text pairs))
    = Ok ("<table>" +:+ join EmptyString (map row_text pairs) +:+ "</table>").
Proof.
  intros Hne Hfree. unfold Forms.parse_post_request.
  rewrite (split_join "&" EmptyString (map pair_text pairs)).
  - rewrite map_map.
    assert (Hmap : map (fun kv => split "=" (pair_text kv)) pairs
                   = map (fun kv => [kv.1; kv.2]) pairs).
    { apply map_ext_Forall. eapply Forall_impl; [exact Hfree|].
      intros kv (_ & Hk & _ & Hv). now apply split_pair. }
    now rewrite Hmap, mapM_rows.
  - now destruct pairs.
  - apply Forall_map. eapply Forall_impl; [exact Hfree|].
    intros kv (Hk & _ & Hv & _). unfold pair_text.
    apply free_of_append; [exact Hk|]. now apply (free_of_append "&" "=").
Qed.

Lemma parse_post_request_rows_witness :
  Forms.parse_post_request (join "&" (map pair_text [("name", "Ada L"); ("lang", "")]))
    = Ok ("<table>" +:+ join EmptyString (map row_text [("name", "Ada L"); ("lang", "")])
            +:+ "</table>").
Proof.
  apply (parse_post_request_rows [("name", "Ada L"); ("lang", "")]); [discriminate|].
  repeat constructor.
Defined.

Lemma length_split_char (c : ascii) (s : string) :
  forall cur,
    length (split_aux (String c EmptyString) None O cur s) = S (count_char c s).
Proof.
  induction s as [|x s IH]; intros cur; [reflexivity|].
  cbn [split_aux starts_with count_char spend String.length Nat.pred].
  destruct (Ascii.eqb c x); cbn [andb length]; now rewrite IH.
Qed.

Lemma table_row_wrong_length (attribute : list str) :
  length attribute <> 2%nat -> Forms.table_row attribute = Raise ValueError.
Proof. destruct attribute as [|k [|v [|x l]]]; cbn; congruence. Qed.

Lemma table_row_raises_value_error (attribute : list str) (e : exn) :
  Forms.table_row attribute = Raise e -> e = ValueError.
Proof. destruct attribute as [|k [|v [|x l]]]; cbn; congruence. Qed.

Lemma mapM_table_row_raise (attributes : list (list str)) :
  Exists (fun a => length a <> 2%nat) attributes ->
  mapM Forms.table_row attributes = Raise ValueError.
Proof.
  induction attributes as [|a attributes IH]; intros Hex; [now apply Exists_nil in Hex|].
  cbn [mapM]. apply Exists_cons in Hex as [Ha|Hex].
  - now rewrite (table_row_wrong_length _ Ha).
  - destruct (Forms.table_row a) as [r|e] eqn:Er; cbn [bind].
    + now rewrite (IH Hex).
    + now rewrite (table_row_raises_value_error _ _ Er).
Qed.

(** X5.  A body in which some field does not hold exactly one [=] (none,
    or a value that contains one) makes [parse_post_request] raise
    [ValueError]; nothing is rendered.  The empty body is such a body. *)
Theorem parse_post_request_malformed (content : str) :
  Exists (fun field => count_char "=" field <> 1%nat) (split "&" content) ->
  Forms.parse_post_request content = Raise ValueError.
Proof.
  intros Hex. unfold Forms.parse_post_request.
  rewrite mapM_table_row_raise; [reflexivity|].
  apply Exists_exists in Hex as (field & Hin & Hcount).
  apply Exists_exists. exists (split "=" field). split.
  - apply list_elem_of_In, in_map, list_elem_of_In, Hin.
  - unfold split. rewrite length_split_char. lia.
Qed.

Lemma parse_post_request_malformed_witness :
  Forms.parse_post_request "a=1&note=x=y" = Raise ValueError
  /\ Forms.parse_post_request EmptyString = Raise ValueError.
Proof.
  split.
  - apply (parse_post_request_malformed "a=1&note=x=y").
    apply Exists_cons_tl, Exists_cons_hd. vm_compute. lia.
  - apply (parse_post_request_malformed EmptyString).
    apply Exists_cons_hd. vm_compute. lia.
Defined.

(** ** The start line *)

Lemma space_width_plain (c : ascii) (t : string) :
  plain_char c = true -> space_width (String c t) = O.
Proof.
  destruct c as [[] [] [] [] [] [] [] []]; try discriminate; intros _;
    destruct t as [|d [|e u]]; reflexivity.
Qed.

Lemma plain_cons (c : ascii) (s : string) :
  plain (String c s) = true -> plain_char c = true /\ plain s = true.
Proof. unfold plain. cbn [forallb_str]. apply andb_true_iff. Qed.

(** A word without white space is read through. *)
Lemma split_ws_aux_word (w : string) :
  forall cur rest,
    plain w = true ->
    split_ws_aux O cur (w +:+ rest) = split_ws_aux O (String.rev_app w cur) rest.
Proof.
  induction w as [|c w IH]; intros cur rest Hw; [reflexivity|].
  apply plain_cons in Hw as [Hc Hw].
  rewrite append_cons. cbn [split_ws_aux String.rev_app].
  rewrite (space_width_plain c _ Hc). now apply IH.
Qed.

Lemma split_ws_aux_space (cur rest : string) :
  split_ws_aux O cur (String " " rest) = flush cur (split_ws_aux O EmptyString rest).
Proof. reflexivity. Qed.

Lemma flush_word (w : string) (l : list string) :
  is_empty w = false -> flush (String.rev_app w EmptyString) l = w :: l.
Proof.
  intros Hw. unfold flush.
  destruct (String.rev_app w EmptyString) as [|c r] eqn:E.
  - apply (f_equal String.rev) in E. rewrite rev_rev_app in E.
    cbn in E. subst w. discriminate.
  - rewrite <- E, rev_rev_app. reflexivity.
Qed.

Lemma split_ws_one_word (w : string) :
  plain w = true -> split_ws w = match w with EmptyString => [] | _ => [w] end.
Proof.
  intros Hw. unfold split_ws.
  rewrite <- (append_empty_r w) at 1. rewrite (split_ws_aux_word w _ _ Hw).
  cbn [split_ws_aux]. destruct w as [|c w]; [reflexivity|].
  now apply flush_word.
Qed.

Lemma drop_conts_plain (s : string) : plain s = true -> drop_conts s = s.
Proof.
  destruct s as [|c s]; [reflexivity|]. intros Hs.
  apply plain_cons in Hs as [Hc _]. cbn [drop_conts].
  destruct c as [[] [] [] [] [] [] [] []]; try discriminate; reflexivity.
Qed.

Lemma request_init_start_line_aux (m target version : str)
    (headers : gmap string string) (content : str) :
  plain m = true -> is_empty m = false ->
  plain target = true ->
  plain version = true -> is_empty version = false ->
  Request.init (m +:+ " " +:+ String "/" target +:+ " " +:+ version) headers content
    = Ok (Request.mk m target headers content).
Proof.
  intros Hm Hm' Ht Hv Hv'. unfold Request.init, split_ws.
  rewrite (split_ws_aux_word m _ _ Hm).
  change (" " +:+ String "/" target +:+ " " +:+ version)
    with (String " " (String "/" target +:+ " " +:+ version)).
  rewrite split_ws_aux_space, (flush_word m _ Hm').
  rewrite (split_ws_aux_word (String "/" target)) by exact Ht.
  change (" " +:+ version) with (String " " version).
  rewrite split_ws_aux_space, (flush_word (String "/" target)) by reflexivity.
  cbn [str_tail]. now rewrite (drop_conts_plain target Ht).
Qed.

(** X6.  From a start line [METHOD SP /target SP version], the three
    parts being ASCII without white space, the request gets the method
    and the target without its leading slash; the version is dropped.  For
    the target [/] the path is empty. *)
Theorem request_init_start_line (m target version : str)
    (headers : gmap string string) (content : str) :
  plain m = true -> is_empty m = false ->
  plain target = true ->
  plain version = true -> is_empty version = false ->
  Request.init (m +:+ " " +:+ String "/" target +:+ " " +:+ version) headers content
    = Ok (Request.mk m target headers content).
Proof. apply request_init_start_line_aux. Qed.

Lemma request_init_start_line_witness :
  Request.init ("GET" +:+ " " +:+ String "/" "index.html" +:+ " " +:+ "HTTP/1.1")
      ∅ EmptyString
    = Ok (Request.mk "GET" "index.html" ∅ EmptyString).
Proof.
  apply (request_init_start_line "GET" "index.html" "HTTP/1.1" ∅ EmptyString);
    reflexivity.
Defined.

(** X7.  A start line of fewer than two words - one word, or nothing -
    leaves nothing to unpack into method and path: [Request.__init__]
    raises [ValueError]. *)
Theorem request_init_one_word (w : str) (headers : gmap string string) (content : str) :
  plain w = true -> Request.init w headers content = Raise ValueError.
Proof.
  intros Hw. unfold Request.init. rewrite (split_ws_one_word w Hw).
  now destruct w.
Qed.

Lemma request_init_one_word_witness :
  Request.init "GET" ∅ EmptyString = Raise ValueError.
Proof. apply (request_init_one_word "GET" ∅ EmptyString). reflexivity. Defined.

(** ** The builder *)

Lemma run_from_state (calls : list call) :
  forall b,
    headers (run_from b calls) = (headers b ++ header_lines calls)%list
    /\ status (run_from b calls) = last_status (status b) calls
    /\ content (run_from b calls) = last_content (content b) calls.
Proof.
  induction calls as [|c calls IH]; intros b.
  - cbn. now rewrite app_nil_r.
  - rewrite run_from_cons. destruct (IH (apply c b)) as (Hh & Hs & Hc).
    rewrite Hh, Hs, Hc. destruct c as [code msg|k v|[s|x]]; cbn; repeat split;
      try reflexivity; now rewrite <- app_assoc.
Qed.

(** X8.  Whatever the order of the calls on a fresh builder, it ends
    with every header line added, in call order and with repeated names
    kept, with the status line of the last [set_status] and with the
    content of the last [set_content]. *)
Theorem builder_state_after_calls (calls : list call) :
  headers (run calls) = header_lines calls
  /\ status (run calls) = last_status None calls
  /\ content (run calls) = last_content None calls.
Proof. exact (run_from_state calls init). Qed.

Lemma last_status_none (calls : list call) :
  existsb is_set_status calls = false -> last_status None calls = None.
Proof.
  unfold last_status. induction calls as [|c calls IH]; [reflexivity|].
  cbn [existsb foldl]. intros H. apply orb_false_iff in H as [Hc H].
  destruct c; try discriminate; now apply IH.
Qed.

(** X9.  A builder on which [set_status] was never called cannot be
    built: [build] raises [TypeError], whatever headers and content it
    was given. *)
Theorem build_without_status (calls : list call) :
  existsb is_set_status calls = false -> build (run calls) = Raise TypeError.
Proof.
  intros Hnone. unfold build, run.
  destruct (run_from_state calls init) as (_ & -> & _).
  cbn [status init]. now rewrite (last_status_none calls Hnone).
Qed.

Lemma build_without_status_witness :
  build (run [AddHeader "Connection" (Str "close"); SetContent (Text "hello")])
    = Raise TypeError.
Proof.
  apply (build_without_status [AddHeader "Connection" (Str "close"); SetContent (Text "hello")]).
  reflexivity.
Defined.

(** ** Permission bits *)

(** X10.  [has_permission_other] answers with bit 2 of the mode (the
    value 4, read permission for others); no other bit of the mode
    matters, and an error of [os.stat] is passed on. *)
Theorem has_permission_other_is_bit_2 (fs : filesystem) (file_name : str) :
  has_permission_other fs file_name
    = match st_mode fs file_name with
      | Ok mode => Ok (Z.testbit mode 2)
      | Raise e => Raise e
      end.
Proof.
  unfold has_permission_other. destruct (st_mode fs file_name) as [mode|e]; [|reflexivity].
  cbn [bind]. f_equal. unfold S_IROTH.
  assert (Hland : Z.land 4 mode = if Z.testbit mode 2 then 4 else 0).
  { apply Z.bits_inj'. intros n Hn. rewrite Z.land_spec.
    change 4 with (2 ^ 2). rewrite Z.pow2_bits_eqb by lia.
    destruct (2 =? n) eqn:E.
    - apply Z.eqb_eq in E. subst n. cbn [andb].
      destruct (Z.testbit mode 2); [|now rewrite Z.bits_0].
      now rewrite Z.pow2_bits_eqb by lia.
    - cbn [andb]. destruct (Z.testbit mode 2); [|now rewrite Z.bits_0].
      rewrite Z.pow2_bits_eqb by lia. now rewrite E. }
  rewrite Hland. now destruct (Z.testbit mode 2).
Qed.

(** ** Reading from the socket *)

Lemma take_drop (n : nat) (s : string) : take n s +:+ drop n s = s.
Proof.
  revert s; induction n as [|n IH]; intros [|c s]; try reflexivity.
  cbn [take drop]. now rewrite append_cons, IH.
Qed.

Lemma take_all (s : string) : take (String.length s) s = s.
Proof. induction s as [|c s IH]; [reflexivity|]. cbn. now rewrite IH. Qed.

Lemma length_take (n : nat) (s : string) :
  String.length (take n s) = Nat.min n (String.length s).
Proof.
  revert s; induction n as [|n IH]; intros [|c s]; try reflexivity.
  cbn. now rewrite IH.
Qed.

Lemma is_empty_length (s : string) : is_empty s = false <-> (0 < String.length s)%nat.
Proof. destruct s; cbn; split; intros; try lia; try discriminate; reflexivity. Qed.

Lemma recv_whole (seg : bytes) (rest : Socket.t) :
  whole seg -> Socket.recv BUFF_SIZE (seg :: rest) = (seg, rest).
Proof.
  intros [_ Hlen]. unfold Socket.recv.
  replace (BUFF_SIZE <=? 0) with false by reflexivity.
  now apply Z.leb_le in Hlen as ->.
Qed.

(** [recv] hands out the bytes in order and loses none. *)
Lemma recv_stream (n : Z) (sock sock' : Socket.t) (data : bytes) :
  Socket.recv n sock = (data, sock') -> data +:+ stream sock' = stream sock.
Proof.
  unfold Socket.recv. destruct sock as [|seg rest]; [now intros [= <- <-]|].
  destruct (n <=? 0); [now intros [= <- <-]|].
  destruct (bytes_len seg <=? n); intros [= <- <-]; [reflexivity|].
  cbn [stream fold_right]. now rewrite <- append_assoc, take_drop.
Qed.

Lemma recv_data (n : Z) (seg : bytes) (rest sock' : Socket.t) (data : bytes) :
  0 < n ->
  Forall (fun s => is_empty s = false) (seg :: rest) ->
  Socket.recv n (seg :: rest) = (data, sock') ->
  is_empty data = false /\ Forall (fun s => is_empty s = false) sock'.
Proof.
  intros Hn Hne. apply Forall_cons in Hne as [Hseg Hrest]. unfold Socket.recv.
  pose proof Hn as Hpos. apply Z.leb_gt in Hn as ->.
  destruct (bytes_len seg <=? n) eqn:Hlen; intros [= <- <-]; [now split|].
  apply Z.leb_gt in Hlen. unfold bytes_len in Hlen.
  apply is_empty_length in Hseg. split.
  - apply is_empty_length. rewrite length_take. lia.
  - apply Forall_cons. split; [|exact Hrest].
    apply is_empty_length. rewrite length_drop. lia.
Qed.

Lemma header_loop_pieces (pre : list bytes) :
  forall fuel header_data sock,
    Forall whole pre ->
    Forall (fun s => contains HTTP_REQ_HEADER_END s = false) pre ->
    Framer.header_loop (length pre + fuel) (pre ++ sock)%list header_data
      = Framer.header_loop fuel sock (header_data +:+ stream pre).
Proof.
  induction pre as [|seg pre IH]; intros fuel hd sock Hwhole Hnone.
  - cbn [stream fold_right length app Nat.add]. now rewrite append_empty_r.
  - apply Forall_cons in Hwhole as [Hseg Hwhole].
    apply Forall_cons in Hnone as [Hno Hnone].
    cbn [length app Nat.add Framer.header_loop].
    rewrite (recv_whole seg _ Hseg). destruct Hseg as [-> _]. rewrite Hno.
    rewrite (IH _ _ _ Hwhole Hnone). cbn [stream fold_right].
    now rewrite append_assoc.
Qed.

Lemma length_le_reads (sock : Socket.t) : (length sock <= Socket.reads sock)%nat.
Proof. induction sock as [|seg sock IH]; cbn; lia. Qed.

Lemma header_loop_more_fuel (fuel : nat) :
  forall sock header_data h extra,
    Framer.header_loop fuel sock header_data = Some h ->
    Framer.header_loop (fuel + extra) sock header_data = Some h.
Proof.
  induction fuel as [|fuel IH]; intros sock hd h extra; [discriminate|].
  cbn [Framer.header_loop Nat.add].
  destruct (Socket.recv BUFF_SIZE sock) as [data sock'].
  destruct (is_empty data); [trivial|].
  destruct (contains HTTP_REQ_HEADER_END data); [trivial|]. apply IH.
Qed.

Lemma header_loop_enough (fuel : nat) (sock : Socket.t) (header_data : bytes)
    (h : Framer.head) :
  Framer.header_loop fuel sock header_data = Some h ->
  Framer.header_loop (S (Socket.reads sock)) sock header_data = Some h.
Proof.
  intros Hloop.
  destruct (header_loop_total (S (Socket.reads sock)) sock header_data) as [h' Hh']; [lia|].
  pose proof (header_loop_more_fuel _ _ _ _ (S (Socket.reads sock)) Hloop) as H1.
  pose proof (header_loop_more_fuel _ _ _ _ fuel Hh') as H2.
  rewrite Nat.add_comm in H2. congruence.
Qed.

(** X11.  The header block may arrive in any number of reads: as long
    as the terminator lies inside one segment, the header bytes are all
    the bytes before it, across the earlier segments, and the body bytes
    received so far are those after it in that segment.  A start line cut
    in pieces is put together this way. *)
Theorem header_loop_reassembles (pre : list bytes) (seg : bytes) (rest : Socket.t) :
  Forall whole pre ->
  Forall (fun s => contains HTTP_REQ_HEADER_END s = false) pre ->
  whole seg ->
  contains HTTP_REQ_HEADER_END seg = true ->
  Framer.header_loop (S (Socket.reads (pre ++ seg :: rest)%list)) (pre ++ seg :: rest)%list EmptyString
    = Some (Framer.mk_head
              (stream pre +:+ slice_to (find HTTP_REQ_HEADER_END seg) seg)
              (slice_from (find HTTP_REQ_HEADER_END seg + 4) seg)
              (Z.max 0 (bytes_len seg - find HTTP_REQ_HEADER_END seg - 4))
              rest).
Proof.
  intros Hwhole Hnone Hseg Hin. apply (header_loop_enough (length pre + 1)).
  rewrite (header_loop_pieces pre _ _ _ Hwhole Hnone).
  cbn [Framer.header_loop]. rewrite (recv_whole seg rest Hseg).
  destruct Hseg as [-> _]. now rewrite Hin.
Qed.

Lemma header_loop_reassembles_witness :
  Framer.header_loop (S (Socket.reads (["GE"; "T /a HT"] ++ ("TP/1.1" +:+ NEWLINE +:+ NEWLINE +:+ "xy") :: ["z"])%list))
      (["GE"; "T /a HT"] ++ ("TP/1.1" +:+ NEWLINE +:+ NEWLINE +:+ "xy") :: ["z"])%list EmptyString
    = Some (Framer.mk_head
              (stream ["GE"; "T /a HT"]
                 +:+ slice_to (find HTTP_REQ_HEADER_END ("TP/1.1" +:+ NEWLINE +:+ NEWLINE +:+ "xy"))
                       ("TP/1.1" +:+ NEWLINE +:+ NEWLINE +:+ "xy"))
              (slice_from (find HTTP_REQ_HEADER_END ("TP/1.1" +:+ NEWLINE +:+ NEWLINE +:+ "xy") + 4)
                 ("TP/1.1" +:+ NEWLINE +:+ NEWLINE +:+ "xy"))
              (Z.max 0 (bytes_len ("TP/1.1" +:+ NEWLINE +:+ NEWLINE +:+ "xy")
                        - find HTTP_REQ_HEADER_END ("TP/1.1" +:+ NEWLINE +:+ NEWLINE +:+ "xy") - 4))
              ["z"]).
Proof.
  apply (header_loop_reassembles ["GE"; "T /a HT"] ("TP/1.1" +:+ NEWLINE +:+ NEWLINE +:+ "xy") ["z"]).
  - repeat constructor; vm_compute; congruence.
  - repeat constructor.
  - split; vm_compute; congruence.
  - reflexivity.
Defined.

(** X12.  If no segment holds a whole terminator, the first loop runs to
    the end of the stream: every byte received becomes header text, also
    a terminator that two segments share, and no body byte is counted. *)
Theorem header_loop_without_terminator (sock : Socket.t) :
  Forall whole sock ->
  Forall (fun s => contains HTTP_REQ_HEADER_END s = false) sock ->
  Framer.header_loop (S (Socket.reads sock)) sock EmptyString
    = Some (Framer.mk_head (stream sock) EmptyString 0 []).
Proof.
  intros Hwhole Hnone. apply (header_loop_enough (length sock + 1)).
  rewrite <- (app_nil_r sock) at 2.
  now rewrite (header_loop_pieces sock _ _ _ Hwhole Hnone).
Qed.

Lemma header_loop_without_terminator_witness :
  Framer.header_loop
      (S (Socket.reads ["GET /a HTTP/1.1" +:+ NEWLINE +:+ String CR EmptyString;
                        String LF EmptyString]))
      ["GET /a HTTP/1.1" +:+ NEWLINE +:+ String CR EmptyString; String LF EmptyString]
      EmptyString
    = Some (Framer.mk_head
              (stream ["GET /a HTTP/1.1" +:+ NEWLINE +:+ String CR EmptyString;
                       String LF EmptyString])
              EmptyString 0 []).
Proof.
  apply (header_loop_without_terminator
           ["GET /a HTTP/1.1" +:+ NEWLINE +:+ String CR EmptyString; String LF EmptyString]).
  - repeat constructor; vm_compute; congruence.
  - repeat constructor.
Defined.

(** Rewriting the scrutinee of the goal's [match] with a hypothesis that
    gives its value up to conversion. *)
Ltac settle_match H :=
  match goal with
  | |- context [match ?x with Some _ => _ | None => _ end] =>
      match type of H with
      | _ = ?r => replace x with r by (symmetry; exact H)
      end
  end.

Lemma content_loop_gathers (fuel : nat) :
  forall sock content,
    Forall (fun s => is_empty s = false) sock ->
    (Socket.reads sock < fuel)%nat ->
    Framer.content_loop fuel sock content = Some (content +:+ stream sock).
Proof.
  induction fuel as [|fuel IH]; intros sock c Hne Hfuel; [lia|].
  cbn [Framer.content_loop].
  destruct sock as [|seg rest].
  { cbn. now rewrite append_empty_r. }
  destruct (Socket.recv BUFF_SIZE (seg :: rest)) as [data sock'] eqn:Hrecv.
  destruct (recv_data BUFF_SIZE seg rest sock' data) as [Hdata Hne']; [reflexivity|assumption..|].
  rewrite Hdata.
  rewrite IH; [|exact Hne'|pose proof (recv_shrinks _ _ _ _ Hrecv Hdata); lia].
  now rewrite append_assoc, (recv_stream _ _ _ _ Hrecv).
Qed.

(** X13.  Without a Content-Length header, once a body byte has come
    with the headers, the body is everything received until the peer
    closes: the bytes that came with the headers, then all later ones in
    order, however they are cut into segments. *)
Theorem read_content_until_close (U : unicode) (header_kvs : gmap string string)
    (h : Framer.head) :
  Framer.content_bytes_read h <> 0 ->
  header_kvs !! "content-length" = None ->
  Forall (fun s => is_empty s = false) (Framer.rest h) ->
  Framer.read_content U header_kvs h
    = Some (Ok (Framer.content h +:+ stream (Framer.rest h))).
Proof.
  intros Hread Hnone Hne. unfold Framer.read_content.
  apply Z.eqb_neq in Hread as ->. settle_match Hnone.
  rewrite (content_loop_gathers _ _ _ Hne) by lia. reflexivity.
Qed.

Lemma read_content_until_close_witness :
  Framer.read_content Demo.ascii_only ∅ (Framer.mk_head "POST /x HTTP/1.1" "a=" 2 ["1&"; "b=2"])
    = Some (Ok ("a=" +:+ stream ["1&"; "b=2"])).
Proof.
  apply (read_content_until_close Demo.ascii_only ∅
           (Framer.mk_head "POST /x HTTP/1.1" "a=" 2 ["1&"; "b=2"])).
  - discriminate.
  - reflexivity.
  - repeat constructor.
Defined.

(** X14.  With a Content-Length of [n], when some but not all of the body
    came with the headers and the next segment holds at least the missing
    bytes, the body is completed to exactly [n] bytes, and what the
    segment holds beyond them is left unread. *)
Theorem read_content_completes (U : unicode) (header_kvs : gmap string string)
    (h : Framer.head) (v : str) (n : Z) (seg : bytes) (more : Socket.t) :
  header_kvs !! "content-length" = Some v ->
  int U v = Ok n ->
  Framer.content_bytes_read h = bytes_len (Framer.content h) ->
  0 < bytes_len (Framer.content h) <= n ->
  Framer.rest h = seg :: more ->
  n - bytes_len (Framer.content h) <= bytes_len seg ->
  exists body,
    Framer.read_content U header_kvs h = Some (Ok body)
    /\ body = Framer.content h +:+ take (Z.to_nat (n - bytes_len (Framer.content h))) seg
    /\ bytes_len body = n.
Proof.
  intros Hlookup Hint Hread Hlen Hrest Hseg.
  eexists. split; [|split; [reflexivity|]].
  - unfold Framer.read_content. rewrite Hread.
    replace (bytes_len (Framer.content h) =? 0) with false by (symmetry; apply Z.eqb_neq; lia).
    settle_match Hlookup. rewrite Hint. cbn [bind]. rewrite Hrest. do 3 f_equal.
    rewrite Z.max_r by lia. unfold Socket.recv.
    destruct (n - bytes_len (Framer.content h) <=? 0) eqn:H0.
    + apply Z.leb_le in H0. replace (n - bytes_len (Framer.content h)) with 0 by lia.
      now destruct seg.
    + destruct (bytes_len seg <=? n - bytes_len (Framer.content h)) eqn:H1; [|reflexivity].
      apply Z.leb_le in H1. cbn [fst].
      replace (n - bytes_len (Framer.content h)) with (bytes_len seg) by lia.
      unfold bytes_len. now rewrite Nat2Z.id, take_all.
  - unfold bytes_len in *. rewrite length_append, length_take. lia.
Qed.

Lemma read_content_completes_witness :
  exists body,
    Framer.read_content Demo.ascii_only {[ "content-length" := " 7" ]}
        (Framer.mk_head "POST /x HTTP/1.1" "a=1" 3 ["&b=2GET"])
      = Some (Ok body)
    /\ body = "a=1" +:+ take (Z.to_nat (7 - bytes_len "a=1")) "&b=2GET"
    /\ bytes_len body = 7.
Proof.
  apply (read_content_completes Demo.ascii_only {[ "content-length" := " 7" ]}
           (Framer.mk_head "POST /x HTTP/1.1" "a=1" 3 ["&b=2GET"]) " 7" 7 "&b=2GET" []);
    try reflexivity; vm_compute; intuition congruence.
Defined.

(** X15.  The body is never cut to the declared length: when at least
    Content-Length bytes came with the headers, nothing more is read and
    all of them are kept. *)
Theorem read_content_keeps_surplus (U : unicode) (header_kvs : gmap string string)
    (h : Framer.head) (v : str) (n : Z) :
  header_kvs !! "content-length" = Some v ->
  int U v = Ok n ->
  n <= Framer.content_bytes_read h ->
  Framer.read_content U header_kvs h = Some (Ok (Framer.content h)).
Proof.
  intros Hlookup Hint Hn. unfold Framer.read_content.
  destruct (Framer.content_bytes_read h =? 0); [reflexivity|].
  settle_match Hlookup. rewrite Hint. cbn [bind]. rewrite Z.max_l by lia.
  unfold Socket.recv. destruct (Framer.rest h); cbn; now rewrite append_empty_r.
Qed.

Lemma read_content_keeps_surplus_witness :
  Framer.read_content Demo.ascii_only {[ "content-length" := " 3" ]}
      (Framer.mk_head "POST /x HTTP/1.1" "a=1&b=2" 7 ["more"])
    = Some (Ok "a=1&b=2").
Proof.
  apply (read_content_keeps_surplus Demo.ascii_only {[ "content-length" := " 3" ]}
           (Framer.mk_head "POST /x HTTP/1.1" "a=1&b=2" 7 ["more"]) " 3" 3);
    try reflexivity. vm_compute. congruence.
Defined.

(** ** A request that arrives in one read *)

Lemma find_request_head (start_line : str) (lines : list str) (body : bytes) :
  no_cr start_line = true -> Forall line_ok lines ->
  find_from HTTP_REQ_HEADER_END
      (join NEWLINE (start_line :: lines) +:+ HTTP_REQ_HEADER_END +:+ body) O
    = Some (String.length (join NEWLINE (start_line :: lines))).
Proof.
  intros Hstart Hlines. destruct lines as [|l lines].
  - cbn [join]. now rewrite (find_from_skip_line _ _ _ Hstart), find_from_here.
  - rewrite join_cons2. now apply find_in_response.
Qed.

Lemma header_text_ok (nv : str * str) :
  no_cr nv.1 = true -> no_cr nv.2 = true -> line_ok (header_text nv).
Proof.
  intros Hn Hv. unfold header_text. split.
  - apply no_cr_append; [exact Hn|]. now apply (no_cr_append ":").
  - now destruct nv.1.
Qed.

Lemma mapM_to_tuple (U : unicode) (hdrs : list (str * str)) :
  Forall (fun nv => free_of ":" nv.1 = true) hdrs ->
  mapM (Framer.to_tuple U) (map header_text hdrs)
    = Ok (map (fun nv => (lower U nv.1, nv.2)) hdrs).
Proof.
  induction hdrs as [|nv hdrs IH]; intros Hfree; [reflexivity|].
  apply Forall_cons in Hfree as [Hnv Hfree].
  cbn [map mapM]. unfold Framer.to_tuple at 1, header_text at 1.
  rewrite (split_max_one ":" EmptyString _ _ Hnv). cbn [bind].
  now rewrite (IH Hfree).
Qed.

(** What the first loop makes of a request that one read returns whole. *)
Lemma header_loop_one_read (start_line : str) (hdrs : list (str * str)) (body : bytes) :
  no_cr start_line = true ->
  Forall (fun nv => no_cr nv.1 = true /\ no_cr nv.2 = true) hdrs ->
  bytes_len (request_text start_line hdrs body) <= BUFF_SIZE ->
  Framer.header_loop (S (Socket.reads [request_text start_line hdrs body]))
      [request_text start_line hdrs body] EmptyString
    = Some (Framer.mk_head (head_of_request start_line hdrs) body (bytes_len body) []).
Proof.
  intros Hstart Hhdrs Hlen.
  assert (Hfind : find_from HTTP_REQ_HEADER_END (request_text start_line hdrs body) O
                  = Some (String.length (head_of_request start_line hdrs))).
  { apply find_request_head; [exact Hstart|]. apply Forall_map.
    eapply Forall_impl; [exact Hhdrs|]. intros nv [Hn Hv]. now apply header_text_ok. }
  pose proof (split_message_at _ _ Hfind) as Hcut.
  fold (request_text start_line hdrs body) in Hcut. unfold split_message in Hcut.
  assert (Hwhole : whole (request_text start_line hdrs body)).
  { split; [|exact Hlen]. apply is_empty_length. unfold request_text.
    rewrite !length_append. change (String.length HTTP_REQ_HEADER_END) with 4%nat. lia. }
  cbn [Framer.header_loop]. rewrite (recv_whole _ _ Hwhole).
  destruct Hwhole as [-> _].
  destruct (contains HTTP_REQ_HEADER_END (request_text start_line hdrs body));
    [|discriminate].
  injection Hcut as Hhead Hbody. rewrite Hhead, Hbody. do 2 f_equal.
  unfold find. rewrite Hfind. unfold bytes_len, request_text.
  rewrite !length_append. change (String.length HTTP_REQ_HEADER_END) with 4%nat. lia.
Qed.

Lemma recv_until_crlfs_one_read_aux (U : unicode) (start_line : str)
    (hdrs : list (str * str)) (body : bytes) :
  no_cr start_line = true ->
  Forall (fun nv => free_of ":" nv.1 = true /\ no_cr nv.1 = true /\ no_cr nv.2 = true) hdrs ->
  utf8_valid (head_of_request start_line hdrs) = true ->
  utf8_valid body = true ->
  bytes_len (request_text start_line hdrs body) <= BUFF_SIZE ->
  (forall v, header_map U hdrs !! "content-length" = Some v -> is_empty body = false ->
             exists n, int U v = Ok n /\ n - bytes_len body <= BUFF_SIZE) ->
  Framer.recv_until_crlfs U [request_text start_line hdrs body]
    = Some (Request.init start_line (header_map U hdrs) body).
Proof.
  intros Hstart Hhdrs Hhead Hbody Hlen Hint.
  unfold Framer.recv_until_crlfs.
  rewrite (header_loop_one_read start_line hdrs body Hstart); [|..|exact Hlen].
  2:{ eapply Forall_impl; [exact Hhdrs|]. intros nv (_ & Hn & Hv). now split. }
  cbn [Framer.header_data].
  assert (Hparse : Framer.parse_head U (head_of_request start_line hdrs)
                   = Ok (start_line :: map header_text hdrs, header_map U hdrs)).
  { unfold Framer.parse_head, decode. rewrite Hhead. cbn [bind].
    unfold head_of_request.
    change NEWLINE with (String CR (String LF EmptyString)).
    rewrite (split_join CR (String LF EmptyString) (start_line :: map header_text hdrs));
      [|discriminate|].
    - cbn [tail]. rewrite mapM_to_tuple; [reflexivity|].
      eapply Forall_impl; [exact Hhdrs|]. now intros nv (Hc & _).
    - apply Forall_cons. split; [exact Hstart|]. apply Forall_map.
      eapply Forall_impl; [exact Hhdrs|]. intros nv (_ & Hn & Hv).
      now apply (header_text_ok nv Hn Hv). }
  rewrite Hparse.
  assert (Hread : Framer.read_content U (header_map U hdrs)
                    (Framer.mk_head (head_of_request start_line hdrs) body (bytes_len body) [])
                  = Some (Ok body)).
  { unfold Framer.read_content. cbn [Framer.content_bytes_read Framer.content Framer.rest].
    destruct body as [|c body]; [reflexivity|].
    replace (bytes_len (String c body) =? 0) with false by reflexivity.
    destruct (header_map U hdrs !! "content-length") as [v|] eqn:Hv; [|reflexivity].
    destruct (Hint v eq_refl eq_refl) as (n & -> & _). cbn [bind Socket.recv fst].
    now rewrite append_empty_r. }
  rewrite Hread. cbn [bind first_item]. unfold decode. now rewrite Hbody.
Qed.

(** X16.  A request that arrives whole in one read of at most 8192
    bytes - start line and headers without carriage return, header names
    without colon, valid UTF-8, and, if there is a body and a
    Content-Length, a value that [int] accepts and that exceeds the body
    received by at most 8192, so that the [recv] for the missing bytes
    asks for no more than the server's usual buffer - is framed as
    written: the header map has the lower-cased names with their values,
    the body is all the bytes after the blank line, and
    [Request.__init__] gets the start line. *)
Theorem recv_until_crlfs_one_read (U : unicode) (start_line : str)
    (hdrs : list (str * str)) (body : bytes) :
  no_cr start_line = true ->
  Forall (fun nv => free_of ":" nv.1 = true /\ no_cr nv.1 = true /\ no_cr nv.2 = true) hdrs ->
  utf8_valid (head_of_request start_line hdrs) = true ->
  utf8_valid body = true ->
  bytes_len (request_text start_line hdrs body) <= BUFF_SIZE ->
  (forall v, header_map U hdrs !! "content-length" = Some v -> is_empty body = false ->
             exists n, int U v = Ok n /\ n - bytes_len body <= BUFF_SIZE) ->
  Framer.recv_until_crlfs U [request_text start_line hdrs body]
    = Some (Request.init start_line (header_map U hdrs) body).
Proof. apply recv_until_crlfs_one_read_aux. Qed.

Lemma recv_until_crlfs_one_read_witness :
  Framer.recv_until_crlfs Demo.ascii_only
      [request_text "POST /form HTTP/1.1"
         [("Host", " a:8080"); ("Content-Length", " 7")] "a=1&b=2"]
    = Some (Request.init "POST /form HTTP/1.1"
              (header_map Demo.ascii_only [("Host", " a:8080"); ("Content-Length", " 7")])
              "a=1&b=2").
Proof.
  apply (recv_until_crlfs_one_read Demo.ascii_only "POST /form HTTP/1.1"
           [("Host", " a:8080"); ("Content-Length", " 7")] "a=1&b=2");
    try reflexivity.
  - repeat constructor.
  - vm_compute. congruence.
  - intros v Hv _. vm_compute in Hv. injection Hv as <-. exists 7.
    split; [reflexivity | vm_compute; congruence].
Defined.

(** X17.  Reading a request ends: on every stream that the peer closes
    after finitely many bytes, both loops of [recv_until_crlfs] stop, and
    the connection gets an answer or an exception. *)
Theorem accept_request_terminates (fs : filesystem) (L : urllib) (U : unicode)
    (client_sock : Socket.t) :
  (exists r, Framer.recv_until_crlfs U client_sock = Some r)
  /\ (exists r, HTTPServer.accept_request fs L U client_sock = Some r).
Proof.
  destruct (recv_until_crlfs_total U client_sock) as [r Hr].
  split; [eauto|]. unfold HTTPServer.accept_request. rewrite Hr. eauto.
Qed.

(** ** The answers of the handlers *)

Lemma build_bare (b : ResponseBuilder.t) (st : str) :
  status b = Some st ->
  build b = Ok (bare_response st (headers b) +:+ body_bytes b).
Proof.
  intros Hst. rewrite (build_layout b st Hst). unfold head_text, bare_response.
  rewrite Hst. cbn [default]. change HTTP_REQ_HEADER_END with (NEWLINE +:+ NEWLINE).
  now rewrite !append_assoc.
Qed.

(** X18.  A HEAD request is answered with a status line, [Allow: HEAD],
    [Connection: close] and nothing after the blank line: 404 for a path
    that does not exist, 403 for one others may not read, 200 otherwise.
    No file is opened, so the answer does not depend on any content. *)
Theorem head_request_answers (fs : filesystem) (request : Request.t) :
  HTTPServer.head_request fs request
    = if file_exists fs (Request.path request) then
        match has_permission_other fs (Request.path request) with
        | Ok true => Ok (bare_response "HTTP/1.1 200 OK" head_lines)
        | Ok false => Ok (bare_response "HTTP/1.1 403 FORBIDDEN" head_lines)
        | Raise e => Raise e
        end
      else Ok (bare_response "HTTP/1.1 404 NOT FOUND" head_lines).
Proof.
  unfold HTTPServer.head_request, HTTPServer.head_request_builder.
  destruct (file_exists fs (Request.path request)); cbn [negb]; [|reflexivity].
  destruct (has_permission_other fs (Request.path request)) as [[]|e]; reflexivity.
Qed.

(** X19.  Every method other than GET, POST and HEAD, spelled exactly
    so, is answered 405 with [Connection: close] and no body, whatever
    the path, the headers and the files are. *)
Theorem other_methods_not_allowed (fs : filesystem) (L : urllib) (request : Request.t) :
  Request.method request <> "GET" ->
  Request.method request <> "POST" ->
  Request.method request <> "HEAD" ->
  HTTPServer.process_response fs L request
    = Ok (bare_response "HTTP/1.1 405 METHOD NOT ALLOWED" ["Connection: close"]).
Proof.
  intros Hget Hpost Hhead. unfold HTTPServer.process_response.
  apply String.eqb_neq in Hget as ->. apply String.eqb_neq in Hpost as ->.
  apply String.eqb_neq in Hhead as ->. reflexivity.
Qed.

Lemma other_methods_not_allowed_witness :
  HTTPServer.process_response Demo.site Demo.plain_urllib
      (Demo.request "get" "index.html" EmptyString)
    = Ok (bare_response "HTTP/1.1 405 METHOD NOT ALLOWED" ["Connection: close"]).
Proof.
  apply (other_methods_not_allowed Demo.site Demo.plain_urllib
           (Demo.request "get" "index.html" EmptyString)); discriminate.
Defined.

(** X20.  A GET for an existing path that others may not read is
    answered 403 with the text of 403.html as body and [Connection:
    close]; the requested file is not opened. *)
Theorem get_unreadable_is_403 (fs : filesystem) (L : urllib) (request : Request.t)
    (page : str) :
  contains "redirect" (Request.path request) = false ->
  file_exists fs (Request.path request) = true ->
  has_permission_other fs (Request.path request) = Ok false ->
  get_file_contents fs "403.html" = Ok page ->
  HTTPServer.get_request fs L request
    = Ok (bare_response "HTTP/1.1 403 FORBIDDEN" ["Connection: close"] +:+ page).
Proof.
  intros Hredirect Hexists Hperm Hpage.
  unfold HTTPServer.get_request, HTTPServer.get_request_builder.
  rewrite Hredirect, Hexists. cbn [negb]. rewrite Hperm. cbn [bind negb].
  rewrite Hpage. cbn [bind]. now rewrite (build_bare _ "HTTP/1.1 403 FORBIDDEN").
Qed.

Lemma get_unreadable_is_403_witness :
  HTTPServer.get_request Demo.site Demo.plain_urllib
      (Demo.request "GET" "secret.txt" EmptyString)
    = Ok (bare_response "HTTP/1.1 403 FORBIDDEN" ["Connection: close"]
            +:+ "<h1>Forbidden</h1>").
Proof.
  apply (get_unreadable_is_403 Demo.site Demo.plain_urllib
           (Demo.request "GET" "secret.txt" EmptyString) "<h1>Forbidden</h1>");
    vm_compute; reflexivity.
Defined.

Lemma code_points_le (s : str) : (count_code_points s <= String.length s)%nat.
Proof.
  induction s as [|c s IH]; [reflexivity|].
  cbn [count_code_points String.length]. destruct (is_cont c); lia.
Qed.

Lemma code_points_eq (s : str) :
  count_code_points s = String.length s <-> single_byte s = true.
Proof.
  unfold single_byte. induction s as [|c s IH]; [now split|].
  cbn [count_code_points String.length forallb_str].
  pose proof (code_points_le s) as Hle.
  destruct (is_cont c); cbn [negb andb]; split; intros H; try lia; try discriminate.
  - apply IH. lia.
  - f_equal. now apply IH.
Qed.

Lemma get_request_ok (fs : filesystem) (L : urllib) (request : Request.t)
    (extension : str) (fileContents : body) :
  contains "redirect" (Request.path request) = false ->
  file_exists fs (Request.path request) = true ->
  has_permission_other fs (Request.path request) = Ok true ->
  last_item (split "." (Request.path request)) = Ok extension ->
  (if should_return_binary extension
   then exists b, get_file_binary_contents fs (Request.path request) = Ok b
                  /\ fileContents = Binary b
   else exists s, get_file_contents fs (Request.path request) = Ok s
                  /\ fileContents = Text s) ->
  HTTPServer.get_request fs L request
    = Ok (bare_response status_200 (ok_lines (get_file_mime_type extension) (len fileContents))
            +:+ match fileContents with Binary b => b | Text s => encode s end).
Proof.
  intros Hredirect Hexists Hperm Hext Hread.
  unfold HTTPServer.get_request, HTTPServer.get_request_builder.
  rewrite Hredirect, Hexists. cbn [negb]. rewrite Hperm. cbn [bind negb].
  rewrite Hext. cbn [bind].
  destruct (should_return_binary extension); destruct Hread as (x & -> & ->);
    cbn [bind]; now rewrite (build_bare _ status_200).
Qed.

(** X21.  A GET for an existing, readable file whose extension is in the
    binary set is answered 200 with the file's bytes as body, the MIME
    type of the extension ([text/plain] if the table has none) and a
    Content-Length equal to the number of bytes sent. *)
Theorem get_binary_file (fs : filesystem) (L : urllib) (request : Request.t)
    (extension : str) (data : bytes) :
  contains "redirect" (Request.path request) = false ->
  file_exists fs (Request.path request) = true ->
  has_permission_other fs (Request.path request) = Ok true ->
  last_item (split "." (Request.path request)) = Ok extension ->
  should_return_binary extension = true ->
  get_file_binary_contents fs (Request.path request) = Ok data ->
  HTTPServer.get_request fs L request
    = Ok (bare_response status_200
            (ok_lines (get_file_mime_type extension) (bytes_len data)) +:+ data).
Proof.
  intros Hredirect Hexists Hperm Hext Hbin Hdata.
  apply (get_request_ok fs L request extension (Binary data)); try assumption.
  rewrite Hbin. eauto.
Qed.

Lemma get_binary_file_witness :
  HTTPServer.get_request
      (Demo.disk (list_to_map [("clip.mov", (420, "RIFF"))])) Demo.plain_urllib
      (Demo.request "GET" "clip.mov" EmptyString)
    = Ok (bare_response status_200
            (ok_lines (get_file_mime_type "mov") (bytes_len "RIFF")) +:+ "RIFF").
Proof.
  apply (get_binary_file (Demo.disk (list_to_map [("clip.mov", (420, "RIFF"))]))
           Demo.plain_urllib (Demo.request "GET" "clip.mov" EmptyString) "mov" "RIFF");
    vm_compute; reflexivity.
Defined.

(** X22.  A GET for an existing, readable file read as text is answered
    200 with the text as body and a Content-Length equal to its number of
    characters.  That is the number of bytes sent exactly when every
    character takes one byte in UTF-8; otherwise the header announces
    fewer bytes than the body has. *)
Theorem get_text_file (fs : filesystem) (L : urllib) (request : Request.t)
    (extension : str) (text : str) :
  contains "redirect" (Request.path request) = false ->
  file_exists fs (Request.path request) = true ->
  has_permission_other fs (Request.path request) = Ok true ->
  last_item (split "." (Request.path request)) = Ok extension ->
  should_return_binary extension = false ->
  get_file_contents fs (Request.path request) = Ok text ->
  HTTPServer.get_request fs L request
    = Ok (bare_response status_200
            (ok_lines (get_file_mime_type extension) (str_len text)) +:+ encode text)
  /\ str_len text <= bytes_len (encode text)
  /\ (str_len text = bytes_len (encode text) <-> single_byte text = true).
Proof.
  intros Hredirect Hexists Hperm Hext Hbin Htext. split; [|split].
  - apply (get_request_ok fs L request extension (Text text)); try assumption.
    rewrite Hbin. eauto.
  - unfold str_len, bytes_len, encode. pose proof (code_points_le text). lia.
  - unfold str_len, bytes_len, encode. rewrite <- code_points_eq. lia.
Qed.

Lemma get_text_file_witness :
  HTTPServer.get_request
      (Demo.disk (list_to_map [("menu.txt", (420, "café"))])) Demo.plain_urllib
      (Demo.request "GET" "menu.txt" EmptyString)
    = Ok (bare_response status_200
            (ok_lines (get_file_mime_type "txt") (str_len "café")) +:+ encode "café")
  /\ str_len "café" <= bytes_len (encode "café")
  /\ (str_len "café" = bytes_len (encode "café") <-> single_byte "café" = true).
Proof.
  apply (get_text_file (Demo.disk (list_to_map [("menu.txt", (420, "café"))]))
           Demo.plain_urllib (Demo.request "GET" "menu.txt" EmptyString) "txt" "café");
    vm_compute; reflexivity.
Defined.

(** X23.  The answer to a missing path is the same bytes whether
    [get_request] builds it or [resource_not_found] does, and both raise
    alike when 404.html cannot be read. *)
Theorem get_missing_is_resource_not_found (fs : filesystem) (L : urllib)
    (request : Request.t) :
  contains "redirect" (Request.path request) = false ->
  file_exists fs (Request.path request) = false ->
  HTTPServer.get_request fs L request = HTTPServer.resource_not_found fs.
Proof.
  intros Hredirect Hmissing.
  unfold HTTPServer.get_request, HTTPServer.get_request_builder,
    HTTPServer.resource_not_found, HTTPServer.resource_not_found_builder.
  rewrite Hredirect, Hmissing. cbn [negb].
  destruct (get_file_contents fs "404.html"); reflexivity.
Qed.

Lemma get_missing_is_resource_not_found_witness :
  HTTPServer.get_request Demo.site Demo.plain_urllib
      (Demo.request "GET" "nowhere.html" EmptyString)
    = HTTPServer.resource_not_found Demo.site.
Proof.
  apply (get_missing_is_resource_not_found Demo.site Demo.plain_urllib
           (Demo.request "GET" "nowhere.html" EmptyString)); vm_compute; reflexivity.
Defined.

(** X24.  Whenever the posted body can be rendered, the answer is 200
    with [Allow: POST], the table as body and a Content-Length equal to
    the table's number of characters - the number of bytes sent exactly
    when the table has no multi-byte character.  When the body cannot be
    rendered the handler raises and nothing is answered. *)
Theorem post_request_answers (L : urllib) (request : Request.t) :
  HTTPServer.post_request L request
    = match parse_post_request (unquote_plus L (Request.content request)) with
      | Ok html => Ok (bare_response status_200 (post_lines (str_len html)) +:+ encode html)
      | Raise e => Raise e
      end
  /\ forall html,
       str_len html <= bytes_len (encode html)
       /\ (str_len html = bytes_len (encode html) <-> single_byte html = true).
Proof.
  split.
  - unfold HTTPServer.post_request, HTTPServer.post_request_builder.
    destruct (parse_post_request (unquote_plus L (Request.content request))) as [html|e];
      [|reflexivity].
    cbn [bind]. now rewrite (build_bare _ status_200).
  - intros html. unfold str_len, bytes_len, encode.
    pose proof (code_points_le html). rewrite <- code_points_eq. lia.
Qed.

(** ** Redirects *)

(** X25.  For a path that contains "redirect" nothing is asked of the
    file system, and a selector other than [youtube] and [google] - a
    missing one counts as empty - is answered 307 with the header
    [Location: None]. *)
Theorem redirect_unknown_selector (fs : filesystem) (L : urllib) (request : Request.t)
    (query text selector : str) :
  contains "redirect" (Request.path request) = true ->
  urlparse_query L (Request.path request) = Ok query ->
  first_param (parse_qs L query) "text" = Ok text ->
  first_param (parse_qs L query) "selector" = Ok selector ->
  selector <> "youtube" -> selector <> "google" ->
  HTTPServer.get_request fs L request
    = Ok (bare_response "HTTP/1.1 307 Redirect" ["Location: None"]).
Proof.
  intros Hredirect Hquery Htext Hselector Hyt Hgo.
  unfold HTTPServer.get_request, HTTPServer.get_request_builder, build_url.
  rewrite Hredirect, Hquery. cbn [bind]. rewrite Htext, Hselector. cbn [bind].
  apply String.eqb_neq in Hyt as ->. apply String.eqb_neq in Hgo as ->. reflexivity.
Qed.

Lemma redirect_unknown_selector_witness :
  HTTPServer.get_request Demo.site Demo.plain_urllib
      (Demo.request "GET" "redirect?selector=bing&text=cats" EmptyString)
    = Ok (bare_response "HTTP/1.1 307 Redirect" ["Location: None"]).
Proof.
  apply (redirect_unknown_selector Demo.site Demo.plain_urllib
           (Demo.request "GET" "redirect?selector=bing&text=cats" EmptyString)
           "selector=bing&text=cats" "cats" "bing");
    try (vm_compute; reflexivity); discriminate.
Defined.

Lemma percent_url_chars (c : ascii) : forallb_str url_char (percent c) = true.
Proof. destruct c as [[] [] [] [] [] [] [] []]; reflexivity. Qed.

Lemma forallb_str_append (p : ascii -> bool) (a b : string) :
  forallb_str p (a +:+ b) = forallb_str p a && forallb_str p b.
Proof.
  induction a as [|x a IH]; [reflexivity|].
  rewrite append_cons. cbn [forallb_str]. now rewrite IH, andb_assoc.
Qed.

Lemma quote_plus_url_chars (s : str) : forallb_str url_char (quote_plus s) = true.
Proof.
  induction s as [|c s IH]; [reflexivity|].
  cbn [quote_plus]. rewrite forallb_str_append, IH, andb_true_r.
  destruct (always_safe c) eqn:Hsafe.
  - cbn [forallb_str]. unfold url_char. now rewrite Hsafe.
  - destruct (code c =? 32)%N; [reflexivity | apply percent_url_chars].
Qed.

Lemma url_char_not_cr (c : ascii) : url_char c = true -> negb (Ascii.eqb c CR) = true.
Proof. destruct c as [[] [] [] [] [] [] [] []]; try discriminate; reflexivity. Qed.

Lemma forallb_str_impl (p q : ascii -> bool) (s : string) :
  (forall c, p c = true -> q c = true) -> forallb_str p s = true -> forallb_str q s = true.
Proof.
  intros Hpq. induction s as [|c s IH]; [reflexivity|].
  cbn [forallb_str]. intros H. apply andb_true_iff in H as [Hc Hs].
  now rewrite (Hpq c Hc), (IH Hs).
Qed.

Lemma quote_plus_no_cr (s : str) : no_cr (quote_plus s) = true.
Proof. apply (forallb_str_impl url_char); [exact url_char_not_cr | apply quote_plus_url_chars]. Qed.

(** X26.  Whatever the [text] parameter holds - spaces, line breaks,
    colons - the Location of a YouTube redirect consists of URL-safe
    characters only, so the text cannot add a header or a body: the
    answer is one status line, one Location line, and nothing after the
    first blank line. *)
Theorem redirect_location_is_escaped (fs : filesystem) (L : urllib) (request : Request.t)
    (query text : str) :
  contains "redirect" (Request.path request) = true ->
  urlparse_query L (Request.path request) = Ok query ->
  first_param (parse_qs L query) "text" = Ok text ->
  first_param (parse_qs L query) "selector" = Ok "youtube" ->
  HTTPServer.get_request fs L request
    = Ok (bare_response "HTTP/1.1 307 Redirect"
            ["Location: https://www.youtube.com/results?search_query=" +:+ quote_plus text])
  /\ forallb_str url_char (quote_plus text) = true
  /\ split_message
       (bare_response "HTTP/1.1 307 Redirect"
          ["Location: https://www.youtube.com/results?search_query=" +:+ quote_plus text])
     = Some ("HTTP/1.1 307 Redirect" +:+ NEWLINE
               +:+ "Location: https://www.youtube.com/results?search_query="
               +:+ quote_plus text,
             EmptyString).
Proof.
  intros Hredirect Hquery Htext Hselector. split; [|split].
  - unfold HTTPServer.get_request, HTTPServer.get_request_builder, build_url.
    rewrite Hredirect, Hquery. cbn [bind]. rewrite Htext, Hselector. reflexivity.
  - apply quote_plus_url_chars.
  - unfold bare_response. cbn [join].
    set (line := "Location: https://www.youtube.com/results?search_query=" +:+ quote_plus text).
    change (NEWLINE +:+ NEWLINE) with HTTP_REQ_HEADER_END.
    rewrite <- (append_empty_r HTTP_REQ_HEADER_END).
    rewrite <- !append_assoc. rewrite (append_assoc _ HTTP_REQ_HEADER_END).
    rewrite (append_assoc "HTTP/1.1 307 Redirect").
    apply split_message_at.
    apply (find_in_response "HTTP/1.1 307 Redirect" [line] EmptyString);
      [reflexivity | discriminate |].
    apply Forall_cons. split; [|apply Forall_nil_2]. split; [|reflexivity].
    apply (no_cr_append "Location: https://www.youtube.com/results?search_query=");
      [reflexivity | apply quote_plus_no_cr].
Qed.

Lemma redirect_location_is_escaped_witness :
  HTTPServer.get_request Demo.site Demo.plain_urllib
      (Demo.request "GET" "redirect?selector=youtube&text=a b:c" EmptyString)
    = Ok (bare_response "HTTP/1.1 307 Redirect"
            ["Location: https://www.youtube.com/results?search_query="
               +:+ quote_plus "a b:c"]).
Proof.
  apply (redirect_location_is_escaped Demo.site Demo.plain_urllib
           (Demo.request "GET" "redirect?selector=youtube&text=a b:c" EmptyString)
           "selector=youtube&text=a b:c" "a b:c");
    vm_compute; reflexivity.
Defined.

(** ** From the socket to the answer *)

Lemma plain_no_cr (s : string) : plain s = true -> no_cr s = true.
Proof.
  apply forallb_str_impl. intros c.
  destruct c as [[] [] [] [] [] [] [] []]; try discriminate; reflexivity.
Qed.

(** X27.  A request that arrives whole in one read, with a start line
    [METHOD SP /target SP version] of ASCII words and a Content-Length
    (if it has one and a body) that exceeds the body received by at most
    8192, is answered with what the dispatcher makes of that method, that
    target without its slash, the lower-cased headers and the body. *)
Theorem accept_request_one_read (fs : filesystem) (L : urllib) (U : unicode)
    (m target version : str) (hdrs : list (str * str)) (body : bytes) :
  plain m = true -> is_empty m = false ->
  plain target = true ->
  plain version = true -> is_empty version = false ->
  Forall (fun nv => free_of ":" nv.1 = true /\ no_cr nv.1 = true /\ no_cr nv.2 = true) hdrs ->
  utf8_valid (head_of_request (m +:+ " " +:+ String "/" target +:+ " " +:+ version) hdrs)
    = true ->
  utf8_valid body = true ->
  bytes_len (request_text (m +:+ " " +:+ String "/" target +:+ " " +:+ version) hdrs body)
    <= BUFF_SIZE ->
  (forall v, header_map U hdrs !! "content-length" = Some v -> is_empty body = false ->
             exists n, int U v = Ok n /\ n - bytes_len body <= BUFF_SIZE) ->
  HTTPServer.accept_request fs L U
      [request_text (m +:+ " " +:+ String "/" target +:+ " " +:+ version) hdrs body]
    = Some (HTTPServer.process_response fs L
              (Request.mk m target (header_map U hdrs) body)).
Proof.
  intros Hm Hm' Ht Hv Hv' Hhdrs Hhead Hbody Hlen Hint.
  unfold HTTPServer.accept_request.
  rewrite (recv_until_crlfs_one_read_aux U _ hdrs body); try assumption.
  - now rewrite (request_init_start_line_aux m target version _ _ Hm Hm' Ht Hv Hv').
  - apply no_cr_append; [now apply plain_no_cr|]. apply (no_cr_append " "); [reflexivity|].
    apply (no_cr_append (String "/" target)); [now apply (plain_no_cr (String "/" target))|].
    apply (no_cr_append " "); [reflexivity | now apply plain_no_cr].
Qed.

Lemma accept_request_one_read_witness :
  HTTPServer.accept_request Demo.site Demo.plain_urllib Demo.ascii_only
      [request_text ("HEAD" +:+ " " +:+ String "/" "index.html" +:+ " " +:+ "HTTP/1.1")
         [("Host", " localhost")] EmptyString]
    = Some (HTTPServer.process_response Demo.site Demo.plain_urllib
              (Request.mk "HEAD" "index.html"
                 (header_map Demo.ascii_only [("Host", " localhost")]) EmptyString)).
Proof.
  apply (accept_request_one_read Demo.site Demo.plain_urllib Demo.ascii_only
           "HEAD" "index.html" "HTTP/1.1" [("Host", " localhost")] EmptyString);
    try reflexivity.
  - repeat constructor.
  - vm_compute. congruence.
  - intros v Hv. vm_compute in Hv. discriminate.
Defined.
